(** * mcp_bq_sse: the BigQuery tool server, embedded in Rocq

    A shallow embedding of [src/mcp_bq_sse/server.py] and
    [src/mcp_bq_sse/bigqueryOp.py].

    - Python values that cross the tool boundary are the type [value].
    - Exceptions are the type [exn]; a computation that may raise and that
      reads or changes the process state has type [M A].
    - The BigQuery client, the clock, [str()] of structured values and
      what else the operating system may refuse to [os.makedirs] and
      [open] are external to the repository; they are the fields of an
      [Env].
    - The process state ([world]) is the single [BigQueryDatabase] object
      created by [create_starlette_app], the directories and files of the
      exports, a trace of the adapter methods entered and of the external
      calls made, and the records handed to the module's logger. *)

From Stdlib Require Import String Ascii List ZArith Lia Bool.
From stdpp Require Import base strings gmap pretty.
Import ListNotations.

Set Warnings "-register-all".

Local Open Scope string_scope.
Local Open Scope list_scope.

(** ** Python values *)

(** The values an MCP client can put in an argument bag (decoded JSON), and
    the cells of a result row.  A float is kept as a decimal literal
    [m * 10^e]. *)
Inductive value : Type :=
| VNone
| VBool (b : bool)
| VInt (z : Z)
| VFloat (m e : Z)
| VStr (s : string)
| VList (l : list value)
| VDict (d : list (string * value)).

(** [type(v).__name__] *)
Definition py_type_name (v : value) : string :=
  match v with
  | VNone => "NoneType"
  | VBool _ => "bool"
  | VInt _ => "int"
  | VFloat _ _ => "float"
  | VStr _ => "str"
  | VList _ => "list"
  | VDict _ => "dict"
  end.

(** [bool(v)] *)
Definition truthy (v : value) : bool :=
  match v with
  | VNone => false
  | VBool b => b
  | VInt z => negb (Z.eqb z 0)
  | VFloat m _ => negb (Z.eqb m 0)
  | VStr s => negb (String.eqb s "")
  | VList l => match l with [] => false | _ => true end
  | VDict d => match d with [] => false | _ => true end
  end.

(** ** Exceptions *)

(** The subclasses of [Exception] that the two modules raise or receive.
    [BackendError] stands for any other exception of the libraries and of
    the operating system, with [str(e)] its message. *)
Inductive exn : Type :=
| ValueError (msg : string)
| KeyError (key : string)
| TypeError (msg : string)
| AttributeError (msg : string)
| FileNotFoundError (filename : string)
| IsADirectoryError (filename : string)
| FileExistsError (filename : string)
| NotADirectoryError (filename : string)
| BackendError (msg : string).

(** [repr(s)] of a string without quotes, backslashes or control
    characters. *)
Definition py_repr_plain (s : string) : string := "'" +:+ s +:+ "'".

(** [str(e)] *)
Definition str_exn (e : exn) : string :=
  match e with
  | ValueError msg => msg
  | KeyError key => py_repr_plain key
  | TypeError msg => msg
  | AttributeError msg => msg
  | FileNotFoundError filename =>
      "[Errno 2] No such file or directory: " +:+ py_repr_plain filename
  | IsADirectoryError filename =>
      "[Errno 21] Is a directory: " +:+ py_repr_plain filename
  | FileExistsError filename =>
      "[Errno 17] File exists: " +:+ py_repr_plain filename
  | NotADirectoryError filename =>
      "[Errno 20] Not a directory: " +:+ py_repr_plain filename
  | BackendError msg => msg
  end.

(** ** Strings *)

(** [s.split(sep)] for a one-character separator: never empty, and one
    segment more than there are separators. *)
Fixpoint split (sep : ascii) (s : string) : list string :=
  match s with
  | EmptyString => [""]
  | String c s' =>
      if Ascii.eqb c sep then "" :: split sep s'
      else match split sep s' with
           | h :: t => String c h :: t
           | [] => [String c ""]
           end
  end.

(** [sep.join(parts)] *)
Definition join (sep : string) (parts : list string) : string :=
  String.concat sep parts.

(** [parts[:-1]] *)
Definition but_last (parts : list string) : list string := removelast parts.

(** [parts[-1]]; the list is never empty where this is used. *)
Definition last_part (parts : list string) : string := List.last parts "".

Fixpoint count_char (c : ascii) (s : string) : nat :=
  match s with
  | EmptyString => 0
  | String c' s' => (if Ascii.eqb c' c then 1 else 0) + count_char c s'
  end.

Definition ends_with_slash (s : string) : bool :=
  match List.last (list_ascii_of_string s) "x"%char with
  | "/"%char => true
  | _ => false
  end.

Definition starts_with_slash (s : string) : bool :=
  match s with
  | String "/"%char _ => true
  | _ => false
  end.

(** *** [posixpath]

    [os.path.dirname] and [os.path.join] of the standard library, on the
    characters of the path. *)

Definition is_slash (c : ascii) : bool := Ascii.eqb c "/"%char.

(** On a reversed path: what is left of the last slash, that slash
    included ([p[:p.rfind("/") + 1]], reversed). *)
Fixpoint drop_until_slash (rcs : list ascii) : list ascii :=
  match rcs with
  | [] => []
  | c :: r => if is_slash c then rcs else drop_until_slash r
  end.

(** On a reversed path: [rstrip("/")]. *)
Fixpoint drop_slashes (rcs : list ascii) : list ascii :=
  match rcs with
  | [] => []
  | c :: r => if is_slash c then drop_slashes r else rcs
  end.

Definition dirname (p : string) : string :=
  let head := drop_until_slash (rev (list_ascii_of_string p)) in
  match head with
  | [] => ""
  | _ :: _ =>
      if forallb is_slash head then string_of_list_ascii (rev head)
      else string_of_list_ascii (rev (drop_slashes head))
  end.

(** [os.path.join(a, b)] for two strings *)
Definition path_join (a b : string) : string :=
  if starts_with_slash b then b
  else if String.eqb a "" || ends_with_slash a then a +:+ b
  else a +:+ "/" +:+ b.

(** ** Data model *)

(** A column of a result: [google.cloud.bigquery.SchemaField]. *)
Record SchemaField := { field_name : string; field_type : string }.

(** A result row, [bigquery.Row]: the cells by column, in column order. *)
Definition Row : Type := list (string * value).

(** What [job.result()] gives: the schema and the rows in the order the
    warehouse returns them. *)
Record RowIterator := { ri_schema : list SchemaField; ri_rows : list Row }.

(** [bigquery.ScalarQueryParameter(name, type_, value)] *)
Record ScalarQueryParameter :=
  { sp_name : string; sp_type : string; sp_value : string }.

(** [dict.__setitem__]: an existing key keeps its place. *)
Fixpoint dict_set (k : string) (v : value) (d : list (string * value))
  : list (string * value) :=
  match d with
  | [] => [(k, v)]
  | (k', v') :: d' =>
      if String.eqb k k' then (k, v) :: d' else (k', v') :: dict_set k v d'
  end.

(** [dict(row.items())] *)
Definition dict_of_items (items : list (string * value)) : list (string * value) :=
  fold_left (fun d kv => dict_set (fst kv) (snd kv) d) items [].

(** [list(row.values())] *)
Definition values_of (row : list (string * value)) : list value := map snd row.

(** The dictionary [{"rows": rows, "schema": results.schema}] kept in
    [self.last_query_results]. *)
Record LastQuery :=
  { lq_rows : list (list (string * value)); lq_schema : list SchemaField }.

(** [bigquery.Client(credentials=..., project=..., location=...)] *)
Record Client :=
  { client_credentials : option string;
    client_project : value;
    client_location : value }.

(** The attributes of a [BigQueryDatabase] object.  [last_query_results] is
    [None] until [execute_query] stores a result. *)
Record BigQueryDatabase :=
  { client : Client;
    datasets_filter : value;
    last_query_results : option LastQuery }.

(** A CSV file as [csv.writer] received it: one list of cells per
    [writerow]. *)
Definition csv_file : Type := list (list value).

(** The directories and files of the exports, by path name as the program
    wrote it: the directories that [os.makedirs] made or found, and for
    each name opened for writing the rows that the [csv.writer] on it was
    given since it was opened.  The current directory and the root always
    exist.  The log file of the module's logger is not in here: what is
    appended to it is [w_log]. *)
Record filesystem :=
  { fs_dirs : list string; fs_files : list (string * csv_file) }.

(** The levels that the two modules log at. *)
Inductive level : Type := DEBUG | INFO | ERROR.

(** A record handed to [logger]: its two handlers print it and append it
    to [/tmp/mcp_bigquery_server.log]. *)
Definition log_record : Type := (level * string)%type.

(** What the trace records: a [BigQueryDatabase] method whose body was
    entered, and each call that leaves the process. *)
Inductive event : Type :=
| EAdapter (method : string)
| EQuery (query : value) (params : list ScalarQueryParameter)
| EListDatasets
| EListTables (dataset_id : string)
| EMakedirs (path : string)
| EOpenWrite (path : string)
| ENow.

Record world :=
  { w_db : BigQueryDatabase;
    w_fs : filesystem;
    w_trace : list event;
    w_log : list log_record }.

(** What the repository takes from outside, each as a function of the
    trace so far where the answer may change over time. *)
Record Env :=
  { (** [self.client.query(q, ...)] followed by [job.result()] *)
    client_query :
      list event -> value -> list ScalarQueryParameter -> exn + RowIterator;
    (** [self.client.list_datasets()]: the dataset ids *)
    client_list_datasets : list event -> exn + list string;
    (** [self.client.list_tables(dataset_id)]: the table ids *)
    client_list_tables : list event -> string -> exn + list string;
    (** [self.client.dataset(d).dataset_id] *)
    client_dataset : value -> exn + string;
    (** [datetime.now().strftime("%Y%m%d_%H%M%S")] *)
    now_strftime : list event -> string;
    (** [str(v)] of a value that is not a string *)
    str_other : value -> string;
    (** [service_account.Credentials.from_service_account_file] *)
    from_service_account_file : value -> exn + string;
    (** whether [bigquery.Client(...)] raises *)
    client_ctor : option string -> value -> value -> option exn;
    (** an error of [os.makedirs(name, exist_ok=True)] that the
        directories and files of the exports do not explain (permissions,
        another spelling of a path, ...) *)
    os_error_makedirs : list event -> string -> option exn;
    (** the same for [open(path, "w")] *)
    os_error_open : list event -> string -> option exn }.

(** ** Computations *)

Definition M (A : Type) : Type := world -> (exn + A) * world.

Definition ret {A} (a : A) : M A := fun w => (inr a, w).

Definition raise {A} (e : exn) : M A := fun w => (inl e, w).

Definition bind {A B} (m : M A) (k : A -> M B) : M B :=
  fun w =>
    match m w with
    | (inl e, w') => (inl e, w')
    | (inr a, w') => k a w'
    end.

(** [try: m  except Exception as e: h e] *)
Definition try_except {A} (m : M A) (h : exn -> M A) : M A :=
  fun w =>
    match m w with
    | (inl e, w') => h e w'
    | (inr a, w') => (inr a, w')
    end.

Notation "'do' x <- m ; k" := (bind m (fun x => k))
  (at level 10, x name, m at level 100, k at level 200,
   format "'[v' 'do'  x  <-  m ; '/' k ']'").
Notation "'run' m ; k" := (bind m (fun _ => k))
  (at level 10, m at level 100, k at level 200,
   format "'[v' 'run'  m ; '/' k ']'").

Definition get_db : M BigQueryDatabase := fun w => (inr (w_db w), w).

Definition set_last_query_results (r : option LastQuery) : M unit :=
  fun w =>
    (inr tt,
     {| w_db := {| client := client (w_db w);
                   datasets_filter := datasets_filter (w_db w);
                   last_query_results := r |};
        w_fs := w_fs w;
        w_trace := w_trace w;
        w_log := w_log w |}).

Definition emit (ev : event) : M unit :=
  fun w =>
    (inr tt,
     {| w_db := w_db w; w_fs := w_fs w; w_trace := w_trace w ++ [ev];
        w_log := w_log w |}).

(** [logger.debug(msg)], [logger.info(msg)], [logger.error(msg)] *)
Definition logger (lv : level) (msg : string) : M unit :=
  fun w =>
    (inr tt,
     {| w_db := w_db w; w_fs := w_fs w; w_trace := w_trace w;
        w_log := w_log w ++ [(lv, msg)] |}).

(** An external call: its answer is the environment's, given the trace
    before the call, and the call is recorded. *)
Definition external {A} (ev : event) (answer : list event -> exn + A) : M A :=
  fun w =>
    (answer (w_trace w),
     {| w_db := w_db w; w_fs := w_fs w; w_trace := w_trace w ++ [ev];
        w_log := w_log w |}).

Definition lift {A} (r : exn + A) : M A := fun w => (r, w).

(** ** The file system, as [os] and [open] act on it *)

Definition dir_exists (fs : filesystem) (d : string) : bool :=
  String.eqb d "" || String.eqb d "." || String.eqb d "/"
  || existsb (String.eqb d) (fs_dirs fs).

(** A directory and the directories above it, as written. *)
Fixpoint ancestors (fuel : nat) (p : string) : list string :=
  match fuel with
  | O => []
  | S fuel' =>
      if String.eqb p "" then []
      else p :: (if String.eqb (dirname p) p then []
                 else ancestors fuel' (dirname p))
  end.

(** [os.fspath(v)], which [os.path.dirname], [os.path.join] and [open]
    apply to their argument *)
Definition fspath (v : value) : M string :=
  match v with
  | VStr s => ret s
  | _ =>
      raise (TypeError ("expected str, bytes or os.PathLike object, not "
                        +:+ py_type_name v))
  end.

Fixpoint set_file (path : string) (c : csv_file)
  (files : list (string * csv_file)) : list (string * csv_file) :=
  match files with
  | [] => [(path, c)]
  | (p, c') :: rest =>
      if String.eqb p path then (p, c) :: rest
      else (p, c') :: set_file path c rest
  end.

Fixpoint get_file (path : string) (files : list (string * csv_file))
  : option csv_file :=
  match files with
  | [] => None
  | (p, c) :: rest => if String.eqb p path then Some c else get_file path rest
  end.

Definition is_file (fs : filesystem) (p : string) : bool :=
  match get_file p (fs_files fs) with
  | Some _ => true
  | None => false
  end.

(** Down a chain of directories, outermost first: the entry below the
    first one that is a file. *)
Fixpoint below_file (fs : filesystem) (chain : list string) : option string :=
  match chain with
  | a :: ((b :: _) as rest) =>
      if is_file fs a then Some b else below_file fs rest
  | _ => None
  end.

(** What [os.makedirs(name, exist_ok=True)] raises, if anything:
    [mkdir("")] fails with ENOENT; a name that is a file fails with
    EEXIST; below a file, [mkdir] fails with ENOTDIR; and the operating
    system may have an error of its own. *)
Definition makedirs_error (E : Env) (history : list event) (fs : filesystem)
  (name : string) : option exn :=
  if String.eqb name "" then Some (FileNotFoundError "")
  else if is_file fs name then Some (FileExistsError name)
  else
    match below_file fs (rev (ancestors (S (String.length name)) name)) with
    | Some blocked => Some (NotADirectoryError blocked)
    | None => os_error_makedirs E history name
    end.

(** The file system after [os.makedirs(name, exist_ok=True)] returned. *)
Definition fs_after_makedirs (fs : filesystem) (name : string) : filesystem :=
  {| fs_dirs := ancestors (S (String.length name)) name ++ fs_dirs fs;
     fs_files := fs_files fs |}.

(** [os.makedirs(name, exist_ok=True)] *)
Definition os_makedirs (E : Env) (name : string) : M unit :=
  do _ <- emit (EMakedirs name);
  fun w =>
    match makedirs_error E (w_trace w) (w_fs w) name with
    | Some e => (inl e, w)
    | None =>
        (inr tt,
         {| w_db := w_db w;
            w_fs := fs_after_makedirs (w_fs w) name;
            w_trace := w_trace w;
            w_log := w_log w |})
    end.

(** What [open(path, "w", ...)] raises, if anything: the empty path fails
    with ENOENT; a path that ends in a slash or is a directory fails with
    EISDIR; below a file it fails with ENOTDIR; without its directory it
    fails with ENOENT; and the operating system may have an error of its
    own. *)
Definition open_error (E : Env) (history : list event) (fs : filesystem)
  (path : string) : option exn :=
  if String.eqb path "" then Some (FileNotFoundError "")
  else if ends_with_slash path || dir_exists fs path then
    Some (IsADirectoryError path)
  else if existsb (is_file fs)
            (ancestors (S (String.length path)) (dirname path)) then
    Some (NotADirectoryError path)
  else if negb (dir_exists fs (dirname path)) then
    Some (FileNotFoundError path)
  else os_error_open E history path.

(** [open(path, "w", ...)]: the file is created or emptied. *)
Definition open_w (E : Env) (path : string) : M unit :=
  do _ <- emit (EOpenWrite path);
  fun w =>
    match open_error E (w_trace w) (w_fs w) path with
    | Some e => (inl e, w)
    | None =>
        (inr tt,
         {| w_db := w_db w;
            w_fs := {| fs_dirs := fs_dirs (w_fs w);
                       fs_files := set_file path [] (fs_files (w_fs w)) |};
            w_trace := w_trace w;
            w_log := w_log w |})
    end.

(** [writer.writerow(cells)] on the file opened at [path] *)
Definition writerow (path : string) (cells : list value) : M unit :=
  fun w =>
    let old := default [] (get_file path (fs_files (w_fs w))) in
    (inr tt,
     {| w_db := w_db w;
        w_fs := {| fs_dirs := fs_dirs (w_fs w);
                   fs_files := set_file path (old ++ [cells])
                                 (fs_files (w_fs w)) |};
        w_trace := w_trace w;
        w_log := w_log w |}).

(** The loop [for row in rows: writer.writerow(list(row.values()));
    row_count += 1] *)
Fixpoint write_rows (path : string) (rows : list (list (string * value)))
  (row_count : nat) : M nat :=
  match rows with
  | [] => ret row_count
  | row :: rest =>
      do _ <- writerow path (values_of row);
      write_rows path rest (S row_count)
  end.

(** [if schema: writer.writerow([field.name for field in schema])] *)
Definition write_headers (path : string) (schema : list SchemaField) : M unit :=
  match schema with
  | [] => ret tt
  | _ :: _ => writerow path (map (fun f => VStr (field_name f)) schema)
  end.

(** ** bigqueryOp.py: class [BigQueryDatabase] *)

Definition nl : string := String (ascii_of_nat 10) "".

(** The names of the parameters that a call left without a value, as
    [TypeError] lists them. *)
Fixpoint missing_names (names : list string) : string :=
  match names with
  | [] => ""
  | [a] => py_repr_plain a
  | [a; b] => py_repr_plain a +:+ " and " +:+ py_repr_plain b
  | a :: rest => py_repr_plain a +:+ ", " +:+
      (match rest with
       | [b; c] => py_repr_plain b +:+ ", and " +:+ py_repr_plain c
       | _ => missing_names rest
       end)
  end.

Definition plural (n : nat) : string := if Nat.eqb n 1 then "" else "s".

(** The [TypeError] of a call that binds [given] positional arguments to
    the required positional parameters [params] ([self] not counted in
    either), in the wording of CPython 3.10 and later. *)
Definition arity_error (qualname : string) (params : list string)
  (given : nat) : exn :=
  if Nat.ltb given (length params) then
    let missing := skipn given params in
    TypeError (qualname +:+ "() missing " +:+ pretty (length missing)
               +:+ " required positional argument"
               +:+ plural (length missing) +:+ ": " +:+ missing_names missing)
  else
    TypeError (qualname +:+ "() takes " +:+ pretty (S (length params))
               +:+ " positional argument" +:+ plural (S (length params))
               +:+ " but " +:+ pretty (S given) +:+
               (if Nat.eqb (S given) 1 then " was given" else " were given")).

Section Adapter.

Variable E : Env.

(** [str(v)], also what an f-string puts for [{v}] *)
Definition py_str (v : value) : string :=
  match v with
  | VStr s => s
  | _ => str_other E v
  end.

(** [BigQueryDatabase.__init__], called with the positional arguments
    [args]: the constructor has four required parameters after [self]. *)
Definition BigQueryDatabase_init (args : list value) : exn + BigQueryDatabase :=
  match args with
  | [project; location; key_file; datasets_filter] =>
      if negb (truthy project) then inl (ValueError "Project is required")
      else if negb (truthy location) then inl (ValueError "Location is required")
      else
        let credentials :=
          if truthy key_file then
            match from_service_account_file E key_file with
            | inr c => inr (Some c)
            | inl e => inl (ValueError ("Invalid key file: " +:+ str_exn e))
            end
          else inr None in
        match credentials with
        | inl e => inl e
        | inr credentials =>
            match client_ctor E credentials project location with
            | Some e => inl e
            | None =>
                inr {| client := {| client_credentials := credentials;
                                    client_project := project;
                                    client_location := location |};
                       datasets_filter := datasets_filter;
                       last_query_results := None |}
            end
        end
  | _ =>
      inl (arity_error "BigQueryDatabase.__init__"
             ["project"; "location"; "key_file"; "datasets_filter"]
             (length args))
  end.

(** The log lines of the module's import and of the constructor, which
    logs its arguments before it checks them and logs a key file that
    cannot be loaded. *)
Definition import_log : list log_record :=
  [(INFO, "Starting MCP BigQuery Server")].

Definition BigQueryDatabase_init_log (args : list value) : list log_record :=
  match args with
  | [project; location; key_file; _] =>
      (INFO, "Initializing BigQuery client for project: " +:+ py_str project
             +:+ ", location: " +:+ py_str location
             +:+ ", key_file: " +:+ py_str key_file)
      :: (if truthy project && truthy location && truthy key_file then
            match from_service_account_file E key_file with
            | inl e =>
                [(ERROR, "Error loading service account credentials: "
                         +:+ str_exn e)]
            | inr _ => []
            end
          else [])
  | _ => []
  end.

(** [execute_query(self, query, params)]; [params = []] stands for the
    default [None], and is as falsy.  The [except] clause logs and raises
    again. *)
Definition execute_query (query : value) (params : list ScalarQueryParameter)
  : M (list (list (string * value))) :=
  do _ <- emit (EAdapter "execute_query");
  do _ <- logger DEBUG ("Executing query: " +:+ py_str query);
  try_except
    (do results <-
       match params with
       | _ :: _ => external (EQuery query params)
                     (fun t => client_query E t query params)
       | [] => external (EQuery query []) (fun t => client_query E t query [])
       end;
     let rows := map dict_of_items (ri_rows results) in
     do _ <- set_last_query_results
               (Some {| lq_rows := rows; lq_schema := ri_schema results |});
     do _ <- logger DEBUG ("Query returned " +:+ pretty (length rows)
                           +:+ " rows");
     ret rows)
    (fun e =>
       do _ <- logger ERROR ("Database error executing query: " +:+ str_exn e);
       raise e).

(** Iterating over [self.datasets_filter]. *)
Definition py_iter (v : value) : M (list value) :=
  match v with
  | VList l => ret l
  | VStr s => ret (map (fun c => VStr (String c "")) (list_ascii_of_string s))
  | VDict d => ret (map (fun kv => VStr (fst kv)) d)
  | _ => raise (TypeError (py_repr_plain (py_type_name v)
                           +:+ " object is not iterable"))
  end.

Fixpoint datasets_of (vs : list value) : M (list string) :=
  match vs with
  | [] => ret []
  | v :: rest =>
      do d <- lift (client_dataset E v);
      do ds <- datasets_of rest;
      ret (d :: ds)
  end.

(** The loop over [datasets] that extends [tables]. *)
Fixpoint list_tables_loop (datasets : list string) (tables : list string)
  : M (list string) :=
  match datasets with
  | [] => ret tables
  | dataset_id :: rest =>
      do dataset_tables <- external (EListTables dataset_id)
                             (fun t => client_list_tables E t dataset_id);
      list_tables_loop rest
        (tables ++ map (fun table_id => dataset_id +:+ "." +:+ table_id)
                     dataset_tables)
  end.

(** [list_tables(self)]: no parameter after [self]. *)
Definition list_tables (args : list value) : M (list string) :=
  match args with
  | [] =>
      do _ <- emit (EAdapter "list_tables");
      do _ <- logger DEBUG "Listing all tables";
      do self <- get_db;
      do datasets <-
        (if truthy (datasets_filter self) then
           do vs <- py_iter (datasets_filter self);
           datasets_of vs
         else external EListDatasets (fun t => client_list_datasets E t));
      do _ <- logger DEBUG ("Found " +:+ pretty (length datasets)
                            +:+ " datasets");
      do tables <- list_tables_loop datasets [];
      do _ <- logger DEBUG ("Found " +:+ pretty (length tables) +:+ " tables");
      ret tables
  | _ => raise (arity_error "BigQueryDatabase.list_tables" [] (length args))
  end.

(** The f-string that [describe_table] assigns to [query]. *)
Definition ddl_query (dataset_id : string) : string :=
  nl +:+ "            SELECT ddl" +:+ nl
  +:+ "            FROM " +:+ dataset_id +:+ ".INFORMATION_SCHEMA.TABLES" +:+ nl
  +:+ "            WHERE table_name = @table_name;" +:+ nl
  +:+ "        ".

(** [describe_table(self, table_name)] *)
Definition describe_table (table_name : value)
  : M (list (list (string * value))) :=
  do _ <- emit (EAdapter "describe_table");
  do _ <- logger DEBUG ("Describing table: " +:+ py_str table_name);
  do parts <-
    match table_name with
    | VStr s => ret (split "." s)
    | _ => raise (AttributeError (py_repr_plain (py_type_name table_name)
                                  +:+ " object has no attribute 'split'"))
    end;
  if negb (Nat.eqb (length parts) 2) && negb (Nat.eqb (length parts) 3) then
    raise (ValueError ("Invalid table name: " +:+ py_str table_name))
  else
    let dataset_id := join "." (but_last parts) in
    let table_id := last_part parts in
    let query := ddl_query dataset_id in
    execute_query (VStr query)
      [{| sp_name := "table_name"; sp_type := "STRING"; sp_value := table_id |}].

(** [save_query_to_csv_file(self, query, file_path)]; [params] keeps its
    default [None] at both call sites. *)
Definition save_query_to_csv_file (query file_path : value) : M string :=
  do _ <- emit (EAdapter "save_query_to_csv_file");
  do _ <- logger DEBUG ("Executing query and saving to CSV file: "
                        +:+ py_str file_path);
  try_except
    (do results <- external (EQuery query [])
                     (fun t => client_query E t query []);
     do path <- fspath file_path;
     do _ <- os_makedirs E (dirname path);
     do _ <- open_w E path;
     do _ <- write_headers path (ri_schema results);
     do row_count <- write_rows path (ri_rows results) 0;
     do _ <- logger DEBUG ("Query results saved to CSV file: " +:+ path
                           +:+ " with " +:+ pretty row_count +:+ " rows");
     ret ("Successfully saved " +:+ pretty row_count +:+ " rows to " +:+ path))
    (fun e =>
       do _ <- logger ERROR ("Error saving query to CSV file: " +:+ str_exn e);
       raise e).

(** [save_last_results_to_csv_file(self, file_path)] *)
Definition save_last_results_to_csv_file (file_path : value) : M string :=
  do _ <- emit (EAdapter "save_last_results_to_csv_file");
  do self <- get_db;
  match last_query_results self with
  | None =>
      raise (ValueError
               "No previous query results available. Execute a query first.")
  | Some last =>
      do _ <- logger DEBUG ("Saving last query results to CSV file: "
                            +:+ py_str file_path);
      try_except
        (do path <- fspath file_path;
         do _ <- os_makedirs E (dirname path);
         do _ <- open_w E path;
         do _ <- write_headers path (lq_schema last);
         do row_count <- write_rows path (lq_rows last) 0;
         do _ <- logger DEBUG ("Last query results saved to CSV file: "
                               +:+ path +:+ " with " +:+ pretty row_count
                               +:+ " rows");
         ret ("Successfully saved " +:+ pretty row_count +:+ " rows to "
              +:+ path))
        (fun e =>
           do _ <- logger ERROR ("Error saving last results to CSV file: "
                                 +:+ str_exn e);
           raise e)
  end.

(** [generate_csv_filename(self, base_name)] *)
Definition generate_csv_filename (base_name : value) : M string :=
  do _ <- emit (EAdapter "generate_csv_filename");
  do timestamp <- external ENow (fun t => inr (now_strftime E t));
  ret (py_str base_name +:+ "_" +:+ timestamp +:+ ".csv").

End Adapter.

(** ** server.py *)

(** One entry of ["properties"] in an [inputSchema]. *)
Record Property := { prop_type : string; prop_description : string }.

(** An [inputSchema] dictionary; [required] is [None] where the dictionary
    has no ["required"] key. *)
Record InputSchema :=
  { schema_type : string;
    properties : list (string * Property);
    required : option (list string) }.

(** [mcp.types.Tool] *)
Record Tool :=
  { name : string; description : string; inputSchema : InputSchema }.

(** The members of the result union of a tool call; the server only ever
    builds [TextContent]. *)
Inductive Content : Type :=
| TextContent (text : string)
| ImageContent (data : string) (mimeType : string)
| EmbeddedResource (uri : string).

(** The argument bag of a call: [dict[str, Any] | None]. *)
Definition Arguments : Type := option (gmap string value).

(** [not arguments] *)
Definition py_not (arguments : Arguments) : bool :=
  match arguments with
  | None => true
  | Some d => Nat.eqb (size d) 0
  end.

(** [key in arguments]; only evaluated behind [not arguments or ...], hence
    on a dictionary. *)
Definition py_in (key : string) (arguments : Arguments) : bool :=
  match arguments with
  | None => false
  | Some d => match d !! key with Some _ => true | None => false end
  end.

(** [arguments[key]] *)
Definition subscript (arguments : Arguments) (key : string) : M value :=
  match arguments with
  | None => raise (TypeError "'NoneType' object is not subscriptable")
  | Some d =>
      match d !! key with
      | Some v => ret v
      | None => raise (KeyError key)
      end
  end.

(** [arguments.get(key, dflt)] *)
Definition py_get (arguments : Arguments) (key : string) (dflt : value)
  : M value :=
  match arguments with
  | None => raise (AttributeError "'NoneType' object has no attribute 'get'")
  | Some d => ret (default dflt (d !! key))
  end.

(** The list literal that [handle_list_tools] returns. *)
Definition tool_list : list Tool :=
    [ {| name := "execute-query";
         description := "Execute a SELECT query on the BigQuery database";
         inputSchema :=
           {| schema_type := "object";
              properties :=
                [("query",
                  {| prop_type := "string";
                     prop_description :=
                       "SELECT SQL query to execute using BigQuery dialect" |})];
              required := Some ["query"] |} |};
      {| name := "list-tables";
         description := "List all tables in the BigQuery database";
         inputSchema :=
           {| schema_type := "object";
              properties :=
                [("datasets_filter",
                  {| prop_type := "string";
                     prop_description :=
                       "Optional filter for datasets (e.g., 'my_dataset')" |})];
              required := None |} |};
      {| name := "describe-table";
         description := "Get the schema information for a specific table";
         inputSchema :=
           {| schema_type := "object";
              properties :=
                [("table_name",
                  {| prop_type := "string";
                     prop_description :=
                       "Name of the table to describe (e.g. my_dataset.my_table)" |})];
              required := Some ["table_name"] |} |};
      {| name := "save-csv-file";
         description := "Execute a SELECT query and save results to a CSV file";
         inputSchema :=
           {| schema_type := "object";
              properties :=
                [("query",
                  {| prop_type := "string";
                     prop_description :=
                       "SELECT SQL query to execute and save as CSV" |});
                 ("file_path",
                  {| prop_type := "string";
                     prop_description :=
                       "Path where to save the CSV file (e.g., /path/to/data.csv)" |})];
              required := Some ["query"; "file_path"] |} |};
      {| name := "save-last-results-csv";
         description :=
           "Save the last query results to a CSV file without re-running the query";
         inputSchema :=
           {| schema_type := "object";
              properties :=
                [("file_path",
                  {| prop_type := "string";
                     prop_description :=
                       "Path where to save the CSV file (e.g., /path/to/data.csv)" |})];
              required := Some ["file_path"] |} |};
      {| name := "save-csv-auto";
         description :=
           "Execute a SELECT query and save results to an auto-generated CSV file with timestamp";
         inputSchema :=
           {| schema_type := "object";
              properties :=
                [("query",
                  {| prop_type := "string";
                     prop_description :=
                       "SELECT SQL query to execute and save as CSV" |});
                 ("directory",
                  {| prop_type := "string";
                     prop_description :=
                       "Directory where to save the CSV file (default: current directory)" |});
                 ("base_name",
                  {| prop_type := "string";
                     prop_description :=
                       "Base name for the CSV file (default: 'bigquery_export')" |})];
              required := Some ["query"] |} |} ].

(** [handle_list_tools()] *)
Definition handle_list_tools : M (list Tool) := ret tool_list.

Section Server.

Variable E : Env.

(** The [try] block of [handle_call_tool]. *)
Definition call_tool_body (name : string) (arguments : Arguments)
  : M (list Content) :=
  if String.eqb name "list-tables" then
    do a <- subscript arguments "datasets_filter";
    do results <- list_tables E [a];
    ret [TextContent (py_str E (VList (map VStr results)))]
  else if String.eqb name "describe-table" then
    if py_not arguments || negb (py_in "table_name" arguments) then
      raise (ValueError "Missing table_name argument")
    else
      do table_name <- subscript arguments "table_name";
      do results <- describe_table E table_name;
      ret [TextContent (py_str E (VList (map VDict results)))]
  else if String.eqb name "save-csv-file" then
    if py_not arguments || negb (py_in "query" arguments)
       || negb (py_in "file_path" arguments) then
      raise (ValueError "Missing query or file_path argument")
    else
      do query <- subscript arguments "query";
      do file_path <- subscript arguments "file_path";
      do result <- save_query_to_csv_file E query file_path;
      ret [TextContent result]
  else if String.eqb name "save-last-results-csv" then
    if py_not arguments || negb (py_in "file_path" arguments) then
      raise (ValueError "Missing file_path argument")
    else
      do file_path <- subscript arguments "file_path";
      do result <- save_last_results_to_csv_file E file_path;
      ret [TextContent result]
  else if String.eqb name "save-csv-auto" then
    if py_not arguments || negb (py_in "query" arguments) then
      raise (ValueError "Missing query argument")
    else
      do directory <- py_get arguments "directory" (VStr ".");
      do base_name <- py_get arguments "base_name" (VStr "bigquery_export");
      do filename <- generate_csv_filename E base_name;
      do directory <- fspath directory;
      let file_path := path_join directory filename in
      do query <- subscript arguments "query";
      do result <- save_query_to_csv_file E query (VStr file_path);
      ret [TextContent result]
  else if String.eqb name "execute-query" then
    if py_not arguments || negb (py_in "query" arguments) then
      raise (ValueError "Missing query argument")
    else
      do query <- subscript arguments "query";
      do results <- execute_query E query [];
      ret [TextContent (py_str E (VList (map VDict results)))]
  else
    raise (ValueError ("Unknown tool: " +:+ name)).

(** [handle_call_tool(name, arguments)] *)
Definition handle_call_tool (name : string) (arguments : Arguments)
  : M (list Content) :=
  try_except (call_tool_body name arguments)
    (fun e => ret [TextContent ("Error: " +:+ str_exn e)]).

(** The application object that [create_starlette_app] returns; its
    handlers close over [app_db]. *)
Record Starlette :=
  { app_debug : bool; app_routes : list string; app_db : BigQueryDatabase }.

(** [create_starlette_app(db_project, db_location, db_key_file)] *)
Definition create_starlette_app (db_project db_location db_key_file : value)
  : exn + Starlette :=
  match BigQueryDatabase_init E [db_project; db_location; db_key_file] with
  | inl e => inl e
  | inr db =>
      inr {| app_debug := true;
             app_routes := ["/sse"; "/messages/"];
             app_db := db |}
  end.

(** A process that reached [uvicorn.run]. *)
Record Serving :=
  { serving_app : Starlette; serving_host : string; serving_port : Z }.

(** [server.main(db_project, db_location, db_key_file, host, port)] *)
Definition main (db_project db_location db_key_file : value)
  (host : string) (port : Z) : exn + Serving :=
  match create_starlette_app db_project db_location db_key_file with
  | inl e => inl e
  | inr starlette_app =>
      inr {| serving_app := starlette_app;
             serving_host := host;
             serving_port := port |}
  end.

(** [a or b] *)
Definition py_or (a b : value) : value := if truthy a then a else b.

(** [mcp_bq_sse.main()]: each setting is the command-line flag, or else
    the environment variable; an absent one is [VNone]. *)
Definition package_main (flag_project env_project flag_location env_location
  flag_key_file env_key_file : value) (host : string) (port : Z)
  : exn + Serving :=
  main (py_or flag_project env_project) (py_or flag_location env_location)
       (py_or flag_key_file env_key_file) host port.

(** *** Sessions

    [handle_sse] runs the one [server] object on the streams of each
    connection, so the requests of every session reach the same two
    handlers, and through them the same [db]. *)

Definition session : Type := nat.

Inductive request : Type :=
| ListToolsRequest
| CallToolRequest (name : string) (arguments : Arguments).

Inductive response : Type :=
| ListToolsResult (tools : list Tool)
| CallToolResult (content : list Content).

Definition serve (s : session) (r : request) : M response :=
  match r with
  | ListToolsRequest =>
      do tools <- handle_list_tools;
      ret (ListToolsResult tools)
  | CallToolRequest name arguments =>
      do content <- handle_call_tool name arguments;
      ret (CallToolResult content)
  end.

(** The requests of all sessions, in the order the server handles them. *)
Fixpoint serve_all (reqs : list (session * request)) (w : world) : world :=
  match reqs with
  | [] => w
  | (s, r) :: rest => serve_all rest (snd (serve s r w))
  end.

End Server.

(** ** Vocabulary of the statements *)

(** The arguments that the catalog declares required for the tool [name]. *)
Definition required_of (tool_name : string) : list string :=
  match find (fun t => String.eqb (name t) tool_name) tool_list with
  | Some t => default [] (required (inputSchema t))
  | None => []
  end.

(** A required argument of the tool is not in the bag, or there is no
    bag. *)
Definition missing_required (tool_name : string) (arguments : Arguments) : Prop :=
  exists key, In key (required_of tool_name) /\
    match arguments with
    | None => True
    | Some d => d !! key = None
    end.

(** The requests to the operating system for a directory or a file. *)
Definition is_fs_event (ev : event) : bool :=
  match ev with
  | EMakedirs _ | EOpenWrite _ => true
  | _ => false
  end.

(** The events that reach the warehouse. *)
Definition is_backend_event (ev : event) : bool :=
  match ev with
  | EQuery _ _ | EListDatasets | EListTables _ => true
  | _ => false
  end.

(** What [csv.writer] receives for a result: the header, if the schema has
    a column, then the cells of each row. *)
Definition csv_of (schema : list SchemaField) (rows : list (list (string * value)))
  : csv_file :=
  match schema with
  | [] => []
  | _ :: _ => [map (fun f => VStr (field_name f)) schema]
  end ++ map values_of rows.



(** A computation that leaves the database object as it found it, whether
    it returns or raises. *)
Definition preserves_db {A} (m : M A) : Prop :=
  forall w, w_db (snd (m w)) = w_db w.

(** A request that does not go through [execute_query]. *)
Definition not_a_query (sr : session * request) : Prop :=
  match snd sr with
  | ListToolsRequest => True
  | CallToolRequest tool_name _ =>
      tool_name <> "execute-query" /\ tool_name <> "describe-table"
  end.

(** A computation whose final state, whether it returns or raises, is
    related by [R] to the state it started from. *)
Definition stable (R : world -> world -> Prop) {A} (m : M A) : Prop :=
  forall w, R w (snd (m w)).

(** No warehouse call was added to the trace. *)
Definition same_backend_calls (w w' : world) : Prop :=
  List.filter is_backend_event (w_trace w')
  = List.filter is_backend_event (w_trace w).

(** No directory was asked for and no file was opened, and the
    directories and files of the exports are as they were. *)
Definition no_export_io (w w' : world) : Prop :=
  w_fs w' = w_fs w
  /\ List.filter is_fs_event (w_trace w')
     = List.filter is_fs_event (w_trace w).

(** The statements that [save_query_to_csv_file] and
    [save_last_results_to_csv_file] have in common, from [os.makedirs] to
    [return]; [saved] is the start of the debug line. *)
Definition export_steps (E : Env) (saved path : string)
  (schema : list SchemaField) (rows : list (list (string * value)))
  : M string :=
  do _ <- os_makedirs E (dirname path);
  do _ <- open_w E path;
  do _ <- write_headers path schema;
  do row_count <- write_rows path rows 0;
  do _ <- logger DEBUG (saved +:+ path +:+ " with " +:+ pretty row_count
                        +:+ " rows");
  ret ("Successfully saved " +:+ pretty row_count +:+ " rows to " +:+ path).

(** With the calls so far [history] and the directories and files [fs],
    [os.makedirs] on the directory part of [path] and then [open] on
    [path] raise nothing. *)
Definition os_accepts (E : Env) (history : list event) (fs : filesystem)
  (path : string) : Prop :=
  makedirs_error E (history ++ [EMakedirs (dirname path)]) fs (dirname path)
  = None
  /\ open_error E ((history ++ [EMakedirs (dirname path)]) ++ [EOpenWrite path])
       (fs_after_makedirs fs (dirname path)) path
     = None.

(** What C6 asks for a session of its own: from a start with an empty
    cache, when the session [s] has made no call that goes through
    [execute_query], its [save-last-results-csv] is answered with an error
    text, whatever the other sessions did. *)
Definition empty_cache_error_in_fresh_session (E : Env) : Prop :=
  forall (reqs : list (session * request)) (s : session)
         (arguments : Arguments) (w : world),
    last_query_results (w_db w) = None ->
    Forall (fun sr => fst sr = s -> not_a_query sr) reqs ->
    exists msg,
      fst (serve E s (CallToolRequest "save-last-results-csv" arguments)
             (serve_all E reqs w))
      = inr (CallToolResult [TextContent ("Error: " +:+ msg)]).

(** The column names of a row are pairwise distinct. *)
Definition distinct_columns (row : Row) : Prop := NoDup (map fst row).

(** ** A small warehouse, for concrete runs *)

Definition demo_result : RowIterator :=
  {| ri_schema := [ {| field_name := "id"; field_type := "INTEGER" |};
                    {| field_name := "city"; field_type := "STRING" |} ];
     ri_rows := [ [("id", VInt 1); ("city", VStr "Oslo")];
                  [("id", VInt 2); ("city", VStr "Lima")] ] |}.

Definition demo_env : Env :=
  {| client_query := fun _ q _ =>
       match q with
       | VStr _ => inr demo_result
       | _ => inl (BackendError "400 query is not a string")
       end;
     client_list_datasets := fun _ => inr ["sales"];
     client_list_tables := fun _ _ => inr ["orders"; "refunds"];
     client_dataset := fun v =>
       match v with
       | VStr d => inr d
       | _ => inl (ValueError "Pass a string for dataset_id")
       end;
     now_strftime := fun _ => "20240102_030405";
     str_other := fun _ => "<value>";
     from_service_account_file := fun _ => inr "credentials";
     client_ctor := fun _ _ _ => None;
     os_error_makedirs := fun _ _ => None;
     os_error_open := fun _ _ => None |}.

(** The same warehouse where no key file can be read. *)
Definition demo_env_no_key : Env :=
  {| client_query := client_query demo_env;
     client_list_datasets := client_list_datasets demo_env;
     client_list_tables := client_list_tables demo_env;
     client_dataset := client_dataset demo_env;
     now_strftime := now_strftime demo_env;
     str_other := str_other demo_env;
     from_service_account_file := fun _ =>
       inl (FileNotFoundError "/no/key.json");
     client_ctor := client_ctor demo_env;
     os_error_makedirs := os_error_makedirs demo_env;
     os_error_open := os_error_open demo_env |}.

(** A database object as a successful constructor would leave it, in an
    empty file system. *)
Definition fresh_world : world :=
  {| w_db := {| client := {| client_credentials := None;
                             client_project := VStr "proj";
                             client_location := VStr "EU" |};
                datasets_filter := VList [];
                last_query_results := None |};
     w_fs := {| fs_dirs := []; fs_files := [] |};
     w_trace := [];
     w_log := import_log
              ++ BigQueryDatabase_init_log demo_env
                   [VStr "proj"; VStr "EU"; VNone; VList []] |}.

(** * Properties *)

(** ** Strings and paths *)

Lemma split_length (sep : ascii) (s : string) :
  length (split sep s) = S (count_char sep s).
Proof.
  induction s as [|c s IH]; simpl; [reflexivity|].
  destruct (Ascii.eqb c sep); simpl.
  - now rewrite IH.
  - destruct (split sep s) as [|h t]; simpl in *; lia.
Qed.

Example split_segments : split "." "a..b." = ["a"; ""; "b"; ""].
Proof. reflexivity. Qed.

Example dirname_nested : dirname "/path/to/data.csv" = "/path/to".
Proof. reflexivity. Qed.

Example dirname_bare : dirname "data.csv" = "".
Proof. reflexivity. Qed.

Example dirname_root : dirname "/data.csv" = "/".
Proof. reflexivity. Qed.

Example dirname_joined : dirname (path_join "." "x.csv") = ".".
Proof. reflexivity. Qed.

(** ** Computations *)

Lemma bind_ret {A B} (a : A) (k : A -> M B) : bind (ret a) k = k a.
Proof. reflexivity. Qed.

Lemma try_except_returned {A} (m : M A) (h : exn -> M A) (w w' : world) (a : A) :
  m w = (inr a, w') -> try_except m h w = (inr a, w').
Proof. intros H. unfold try_except. now rewrite H. Qed.

Lemma try_except_raised {A} (m : M A) (h : exn -> M A) (w w' : world) (e : exn) :
  m w = (inl e, w') -> try_except m h w = h e w'.
Proof. intros H. unfold try_except. now rewrite H. Qed.

(** An [except] clause that logs and raises again: the outcome is that of
    the body, with one more log record when it raised. *)
Lemma try_log_reraise {A} (m : M A) (msg : exn -> string) (w w' : world)
  (e : exn) :
  m w = (inl e, w') ->
  try_except m (fun e => do _ <- logger ERROR (msg e); raise e) w
  = (inl e,
     {| w_db := w_db w'; w_fs := w_fs w'; w_trace := w_trace w';
        w_log := w_log w' ++ [(ERROR, msg e)] |}).
Proof. intros H. unfold try_except. now rewrite H. Qed.

(** ** The tool catalog *)

(** C1, as the code has it: in every session, after any requests of any
    sessions and from any state, the catalog request returns the same
    six descriptors in the same order, and leaves the state as it was. *)
Theorem list_tools_six_always (E : Env) (s : session)
  (reqs : list (session * request)) (w : world) :
  serve E s ListToolsRequest (serve_all E reqs w)
  = (inr (ListToolsResult tool_list), serve_all E reqs w)
  /\ map name tool_list
     = ["execute-query"; "list-tables"; "describe-table"; "save-csv-file";
        "save-last-results-csv"; "save-csv-auto"]
  /\ length tool_list = 6.
Proof. repeat split. Qed.

(** C1, as stated, fails: the catalog does not have five descriptors. *)
Lemma list_tools_not_five :
  ~ (exists tools,
       fst (handle_list_tools fresh_world) = inr tools /\ length tools = 5).
Proof.
  intros (tools & Htools & Hlen).
  simpl in Htools. injection Htools as <-. discriminate Hlen.
Qed.

(** ** Startup *)

(** C10: whatever the project, location and key file, the constructor call
    of [create_starlette_app] raises [TypeError] for the parameter it does
    not pass, and so do [main] and the package's [main]: no configuration
    reaches [uvicorn.run]. *)
Theorem create_starlette_app_always_raises (E : Env)
  (db_project db_location db_key_file : value) :
  let e := TypeError
    "BigQueryDatabase.__init__() missing 1 required positional argument: 'datasets_filter'" in
  create_starlette_app E db_project db_location db_key_file = inl e
  /\ (forall host port,
        main E db_project db_location db_key_file host port = inl e)
  /\ (forall fp ep fl el fk ek host port,
        package_main E fp ep fl el fk ek host port = inl e).
Proof. repeat split. Qed.

(** ** The dispatcher *)

Ltac unfold_dispatch :=
  unfold handle_call_tool, call_tool_body, try_except, bind, subscript,
    py_get, raise, ret; simpl.

(** C2, the code at the inputs of the claim: [list-tables] answers every
    argument bag with an error text and calls nothing.  Without a bag the
    subscript raises [TypeError], without the key it raises [KeyError], and
    with the key [list_tables] is given an argument it does not take. *)
Theorem list_tables_tool_always_fails (E : Env) (arguments : Arguments)
  (w : world) :
  (exists msg,
     handle_call_tool E "list-tables" arguments w
     = (inr [TextContent ("Error: " +:+ msg)], w))
  /\ handle_call_tool E "list-tables" None w
     = (inr [TextContent "Error: 'NoneType' object is not subscriptable"], w)
  /\ handle_call_tool E "list-tables" (Some ∅) w
     = (inr [TextContent "Error: 'datasets_filter'"], w)
  /\ (forall v,
        handle_call_tool E "list-tables" (Some {[ "datasets_filter" := v ]}) w
        = (inr [TextContent
                  "Error: BigQueryDatabase.list_tables() takes 1 positional argument but 2 were given"],
           w)).
Proof.
  split; [|split; [|split]].
  - unfold_dispatch. destruct arguments as [d|]; simpl; [|eauto].
    destruct (d !! "datasets_filter"); simpl; eauto.
  - reflexivity.
  - reflexivity.
  - intros v. unfold_dispatch. rewrite lookup_singleton_eq. reflexivity.
Qed.

(** Case analysis on every test and call of a computation that is known,
    by [H], to have returned. *)
Ltac crunch H :=
  repeat match type of H with
    | context [match ?x with _ => _ end] =>
        destruct x eqn:?; simpl in H; try discriminate H
    end.

Lemma call_tool_body_returns_text (E : Env) (tool_name : string)
  (arguments : Arguments) (w w' : world) (content : list Content) :
  call_tool_body E tool_name arguments w = (inr content, w') ->
  exists text, content = [TextContent text].
Proof.
  intros H. unfold call_tool_body in H.
  unfold bind, subscript, py_get, raise, ret in H.
  crunch H; injection H as <- <-; eauto.
Qed.

Lemma unknown_tool_tests (tool_name : string) :
  ~ In tool_name (map name tool_list) ->
  String.eqb tool_name "list-tables" = false
  /\ String.eqb tool_name "describe-table" = false
  /\ String.eqb tool_name "save-csv-file" = false
  /\ String.eqb tool_name "save-last-results-csv" = false
  /\ String.eqb tool_name "save-csv-auto" = false
  /\ String.eqb tool_name "execute-query" = false.
Proof.
  intros Hnot. simpl in Hnot.
  repeat split; apply String.eqb_neq; intros ->; apply Hnot; tauto.
Qed.

(** C3: for every tool name and argument bag, absent or not,
    [handle_call_tool] returns, never raises, and its result is one text
    block; when its [try] block raises [e] the text is ["Error: "] followed
    by [str(e)]; a name that is not in the catalog gives the text
    ["Error: Unknown tool: <name>"] and changes nothing. *)
Theorem handle_call_tool_never_raises (E : Env) (tool_name : string)
  (arguments : Arguments) (w : world) :
  (exists text,
     fst (handle_call_tool E tool_name arguments w) = inr [TextContent text])
  /\ (forall e,
        fst (call_tool_body E tool_name arguments w) = inl e ->
        fst (handle_call_tool E tool_name arguments w)
        = inr [TextContent ("Error: " +:+ str_exn e)])
  /\ (~ In tool_name (map name tool_list) ->
      handle_call_tool E tool_name arguments w
      = (inr [TextContent ("Error: Unknown tool: " +:+ tool_name)], w)).
Proof.
  split; [|split].
  - unfold handle_call_tool, try_except.
    destruct (call_tool_body E tool_name arguments w) as [[e|content] w'] eqn:H.
    + simpl. eauto.
    + apply call_tool_body_returns_text in H as [text ->]. simpl. eauto.
  - intros e H. unfold handle_call_tool, try_except.
    destruct (call_tool_body E tool_name arguments w) as [[e'|content] w'].
    + simpl in *. now injection H as ->.
    + discriminate H.
  - intros Hnot.
    destruct (unknown_tool_tests tool_name Hnot) as (H1 & H2 & H3 & H4 & H5 & H6).
    unfold handle_call_tool, call_tool_body, try_except.
    rewrite H1, H2, H3, H4, H5, H6. reflexivity.
Qed.

Lemma handle_call_tool_never_raises_witness :
  fst (handle_call_tool demo_env "drop-everything" None fresh_world)
  = inr [TextContent
           ("Error: " +:+ str_exn (ValueError "Unknown tool: drop-everything"))]
  /\ handle_call_tool demo_env "drop-everything" None fresh_world
     = (inr [TextContent "Error: Unknown tool: drop-everything"], fresh_world).
Proof.
  destruct (handle_call_tool_never_raises demo_env "drop-everything" None
              fresh_world) as (_ & Hraised & Hunknown).
  split.
  - apply Hraised. reflexivity.
  - apply Hunknown. simpl. intros H.
    decompose [or] H; try discriminate; assumption.
Defined.

(** C8: when an argument that the catalog declares required for the tool
    is not in the bag, or there is no bag, the result is an error text and
    the state is the one before the call: no adapter method was entered,
    nothing was queried, listed or written. *)
Theorem missing_required_argument_no_backend (E : Env) (tool_name : string)
  (arguments : Arguments) (w : world) :
  missing_required tool_name arguments ->
  exists msg,
    handle_call_tool E tool_name arguments w
    = (inr [TextContent ("Error: " +:+ msg)], w).
Proof.
  intros (key & Hin & Hmiss). unfold required_of, tool_list in Hin.
  cbn [find name] in Hin.
  repeat match type of Hin with
    | context [String.eqb ?lit tool_name] =>
        destruct (String.eqb_spec lit tool_name) as [<-|_]
    end;
    cbn [inputSchema required from_option id In] in Hin;
    try contradiction;
    unfold_dispatch; unfold py_not, py_in;
    destruct arguments as [d|]; simpl; eauto;
    decompose [or] Hin; try contradiction; subst key;
    rewrite Hmiss; simpl; rewrite ?orb_true_r; simpl; eauto.
Qed.

Lemma missing_required_argument_no_backend_witness :
  exists msg,
    handle_call_tool demo_env "save-csv-file"
      (Some {[ "query" := VStr "SELECT 1" ]}) fresh_world
    = (inr [TextContent ("Error: " +:+ msg)], fresh_world).
Proof.
  apply (missing_required_argument_no_backend demo_env "save-csv-file"
           (Some {[ "query" := VStr "SELECT 1" ]}) fresh_world).
  exists "file_path". split.
  - simpl. tauto.
  - reflexivity.
Defined.

(** A bag that holds a key is not an empty bag. *)
Lemma py_not_false_of_lookup (d : gmap string value) (key : string) (v : value) :
  d !! key = Some v -> py_not (Some d) = false.
Proof.
  intros H. unfold py_not. apply Nat.eqb_neq.
  apply (map_size_ne_0_lookup_2 d key). rewrite H. eauto.
Qed.

Lemma py_in_true_of_lookup (d : gmap string value) (key : string) (v : value) :
  d !! key = Some v -> py_in key (Some d) = true.
Proof. intros H. unfold py_in. now rewrite H. Qed.

(** ** Running the adapter methods *)

Lemma bind_returned {A B} (m : M A) (k : A -> M B) (w w' : world) (a : A) :
  m w = (inr a, w') -> bind m k w = k a w'.
Proof. intros H. unfold bind. now rewrite H. Qed.

Lemma bind_raised {A B} (m : M A) (k : A -> M B) (w w' : world) (e : exn) :
  m w = (inl e, w') -> bind m k w = (inl e, w').
Proof. intros H. unfold bind. now rewrite H. Qed.

Lemma try_except_bind_returned {A B} (m : M A) (k : A -> M B)
  (h : exn -> M B) (w w' : world) (a : A) :
  m w = (inr a, w') -> try_except (bind m k) h w = try_except (k a) h w'.
Proof. intros H. unfold try_except, bind. now rewrite H. Qed.

Lemma external_answer {A} (ev : event) (answer : list event -> exn + A)
  (w : world) (r : exn + A) :
  answer (w_trace w) = r ->
  external ev answer w
  = (r, {| w_db := w_db w; w_fs := w_fs w; w_trace := w_trace w ++ [ev];
           w_log := w_log w |}).
Proof. intros <-. reflexivity. Qed.

(** One more statement of a computation has run. *)
Ltac step := erewrite bind_returned by reflexivity.

Lemma get_set_file (path : string) (c : csv_file)
  (files : list (string * csv_file)) :
  get_file path (set_file path c files) = Some c.
Proof.
  induction files as [|[p c'] rest IH]; simpl.
  - now rewrite String.eqb_refl.
  - destruct (String.eqb p path) eqn:Hp; simpl; now rewrite Hp.
Qed.

Lemma write_rows_spec (path : string) (rows : list (list (string * value))) :
  forall (row_count : nat) (w : world) (old : csv_file),
    get_file path (fs_files (w_fs w)) = Some old ->
    exists w',
      write_rows path rows row_count w = (inr (row_count + length rows), w')
      /\ w_db w' = w_db w
      /\ w_trace w' = w_trace w
      /\ w_log w' = w_log w
      /\ fs_dirs (w_fs w') = fs_dirs (w_fs w)
      /\ get_file path (fs_files (w_fs w')) = Some (old ++ map values_of rows).
Proof.
  induction rows as [|row rest IH]; intros row_count w old Hold.
  - exists w. simpl. rewrite Nat.add_0_r, app_nil_r. auto 10.
  - simpl. unfold bind, writerow. rewrite Hold. cbn [default from_option id].
    set (w1 := {| w_db := w_db w; w_fs := _; w_trace := w_trace w;
                  w_log := w_log w |}).
    assert (Hold1 : get_file path (fs_files (w_fs w1))
                    = Some (old ++ [values_of row]))
      by apply get_set_file.
    destruct (IH (S row_count) w1 _ Hold1)
      as (w' & Hrun & Hdb & Htr & Hlog & Hdirs & Hfile).
    exists w'. rewrite Hrun. rewrite <- app_assoc in Hfile.
    repeat split; eauto. f_equal. f_equal. lia.
Qed.

Lemma write_headers_spec (path : string) (schema : list SchemaField)
  (w : world) :
  get_file path (fs_files (w_fs w)) = Some [] ->
  exists w',
    write_headers path schema w = (inr tt, w')
    /\ w_db w' = w_db w
    /\ w_trace w' = w_trace w
    /\ w_log w' = w_log w
    /\ fs_dirs (w_fs w') = fs_dirs (w_fs w)
    /\ get_file path (fs_files (w_fs w'))
       = Some (match schema with
               | [] => []
               | _ :: _ => [map (fun f => VStr (field_name f)) schema]
               end).
Proof.
  intros Hfile. destruct schema as [|f fs].
  - exists w. simpl. auto 10.
  - eexists. unfold write_headers, writerow. rewrite Hfile.
    split; [reflexivity|]. cbn. rewrite get_set_file. auto 10.
Qed.


Lemma dirname_empty : dirname "" = "".
Proof. reflexivity. Qed.

Lemma makedirs_error_empty (E : Env) (history : list event) (fs : filesystem) :
  makedirs_error E history fs "" = Some (FileNotFoundError "").
Proof. reflexivity. Qed.


Lemma os_makedirs_run (E : Env) (name : string) (w : world) :
  os_makedirs E name w
  = match makedirs_error E (w_trace w ++ [EMakedirs name]) (w_fs w) name with
    | Some e =>
        (inl e,
         {| w_db := w_db w; w_fs := w_fs w;
            w_trace := w_trace w ++ [EMakedirs name]; w_log := w_log w |})
    | None =>
        (inr tt,
         {| w_db := w_db w; w_fs := fs_after_makedirs (w_fs w) name;
            w_trace := w_trace w ++ [EMakedirs name]; w_log := w_log w |})
    end.
Proof. reflexivity. Qed.

Lemma open_w_run (E : Env) (path : string) (w : world) :
  open_w E path w
  = match open_error E (w_trace w ++ [EOpenWrite path]) (w_fs w) path with
    | Some e =>
        (inl e,
         {| w_db := w_db w; w_fs := w_fs w;
            w_trace := w_trace w ++ [EOpenWrite path]; w_log := w_log w |})
    | None =>
        (inr tt,
         {| w_db := w_db w;
            w_fs := {| fs_dirs := fs_dirs (w_fs w);
                       fs_files := set_file path [] (fs_files (w_fs w)) |};
            w_trace := w_trace w ++ [EOpenWrite path]; w_log := w_log w |})
    end.
Proof. reflexivity. Qed.

(** The common statements when [os.makedirs] raises: nothing is made and
    nothing is opened. *)
Lemma export_steps_makedirs_raises (E : Env) (saved path : string)
  (schema : list SchemaField) (rows : list (list (string * value)))
  (w : world) (e : exn) :
  makedirs_error E (w_trace w ++ [EMakedirs (dirname path)]) (w_fs w)
    (dirname path) = Some e ->
  export_steps E saved path schema rows w
  = (inl e,
     {| w_db := w_db w; w_fs := w_fs w;
        w_trace := w_trace w ++ [EMakedirs (dirname path)];
        w_log := w_log w |}).
Proof.
  intros He. unfold export_steps.
  erewrite bind_raised; [reflexivity|]. now rewrite os_makedirs_run, He.
Qed.

(** The common statements when [open] raises: the directory was made,
    no row is written. *)
Lemma export_steps_open_raises (E : Env) (saved path : string)
  (schema : list SchemaField) (rows : list (list (string * value)))
  (w : world) (e : exn) :
  makedirs_error E (w_trace w ++ [EMakedirs (dirname path)]) (w_fs w)
    (dirname path) = None ->
  open_error E ((w_trace w ++ [EMakedirs (dirname path)]) ++ [EOpenWrite path])
    (fs_after_makedirs (w_fs w) (dirname path)) path = Some e ->
  export_steps E saved path schema rows w
  = (inl e,
     {| w_db := w_db w; w_fs := fs_after_makedirs (w_fs w) (dirname path);
        w_trace := (w_trace w ++ [EMakedirs (dirname path)])
                   ++ [EOpenWrite path];
        w_log := w_log w |}).
Proof.
  intros Hmk He. unfold export_steps.
  erewrite bind_returned by (now rewrite os_makedirs_run, Hmk).
  erewrite bind_raised; [reflexivity|].
  rewrite open_w_run. cbn [w_trace w_fs w_db w_log]. now rewrite He.
Qed.

(** The common statements when both are accepted: the file receives the
    header and the rows, and their number is logged and returned. *)
Lemma export_steps_ok (E : Env) (saved path : string)
  (schema : list SchemaField) (rows : list (list (string * value)))
  (w : world) :
  os_accepts E (w_trace w) (w_fs w) path ->
  exists w',
    export_steps E saved path schema rows w
    = (inr ("Successfully saved " +:+ pretty (length rows) +:+ " rows to "
            +:+ path), w')
    /\ w_db w' = w_db w
    /\ w_trace w' = (w_trace w ++ [EMakedirs (dirname path)])
                    ++ [EOpenWrite path]
    /\ w_log w' = w_log w ++ [(DEBUG, saved +:+ path +:+ " with "
                                      +:+ pretty (length rows) +:+ " rows")]
    /\ fs_dirs (w_fs w') = fs_dirs (fs_after_makedirs (w_fs w) (dirname path))
    /\ get_file path (fs_files (w_fs w')) = Some (csv_of schema rows).
Proof.
  intros [Hmk Hop]. unfold export_steps.
  erewrite bind_returned by (now rewrite os_makedirs_run, Hmk).
  erewrite bind_returned
    by (rewrite open_w_run; cbn [w_trace w_fs w_db w_log]; now rewrite Hop).
  set (w1 := {| w_db := w_db w; w_fs := _; w_trace := _; w_log := w_log w |}).
  destruct (write_headers_spec path schema w1)
    as (w2 & Hrun2 & Hdb2 & Htr2 & Hlog2 & Hdirs2 & Hfile2);
    [apply get_set_file|].
  erewrite bind_returned by exact Hrun2.
  destruct (write_rows_spec path rows 0 w2 _ Hfile2)
    as (w3 & Hrun3 & Hdb3 & Htr3 & Hlog3 & Hdirs3 & Hfile3).
  erewrite bind_returned by exact Hrun3.
  eexists. split; [reflexivity|]. cbn [w_db w_fs w_trace w_log Nat.add].
  rewrite Hdb3, Hdb2, Htr3, Htr2, Hlog3, Hlog2, Hdirs3, Hdirs2.
  subst w1. cbn. auto 10.
Qed.

(** *** [execute_query] *)


Lemma execute_query_raises (E : Env) (query : value) (w : world) (e : exn) :
  client_query E (w_trace w ++ [EAdapter "execute_query"]) query [] = inl e ->
  execute_query E query [] w
  = (inl e,
     {| w_db := w_db w;
        w_fs := w_fs w;
        w_trace := (w_trace w ++ [EAdapter "execute_query"])
                   ++ [EQuery query []];
        w_log := (w_log w ++ [(DEBUG, "Executing query: " +:+ py_str E query)])
                 ++ [(ERROR, "Database error executing query: "
                             +:+ str_exn e)] |}).
Proof.
  intros Hq. unfold execute_query. step. step.
  erewrite try_log_reraise
    by (eapply bind_raised; apply external_answer; exact Hq).
  reflexivity.
Qed.

(** *** [save_query_to_csv_file] *)

(** The world in which [save_query_to_csv_file] reaches [os.makedirs]:
    the method was entered and logged, and the query was answered. *)
Lemma save_query_to_csv_file_after_query (E : Env) (query file_path : value)
  (results : RowIterator) (w : world) :
  client_query E (w_trace w ++ [EAdapter "save_query_to_csv_file"]) query []
  = inr results ->
  save_query_to_csv_file E query file_path w
  = try_except
      (do path <- fspath file_path;
       export_steps E "Query results saved to CSV file: " path
         (ri_schema results) (ri_rows results))
      (fun e =>
         do _ <- logger ERROR ("Error saving query to CSV file: "
                               +:+ str_exn e);
         raise e)
      {| w_db := w_db w;
         w_fs := w_fs w;
         w_trace := (w_trace w ++ [EAdapter "save_query_to_csv_file"])
                    ++ [EQuery query []];
         w_log := w_log w
                  ++ [(DEBUG, "Executing query and saving to CSV file: "
                              +:+ py_str E file_path)] |}.
Proof.
  intros Hq. unfold save_query_to_csv_file. step. step.
  erewrite try_except_bind_returned by (apply external_answer; exact Hq).
  reflexivity.
Qed.

Lemma save_query_to_csv_file_query_raises (E : Env) (query file_path : value)
  (e : exn) (w : world) :
  client_query E (w_trace w ++ [EAdapter "save_query_to_csv_file"]) query []
  = inl e ->
  save_query_to_csv_file E query file_path w
  = (inl e,
     {| w_db := w_db w;
        w_fs := w_fs w;
        w_trace := (w_trace w ++ [EAdapter "save_query_to_csv_file"])
                   ++ [EQuery query []];
        w_log := (w_log w
                  ++ [(DEBUG, "Executing query and saving to CSV file: "
                              +:+ py_str E file_path)])
                 ++ [(ERROR, "Error saving query to CSV file: "
                             +:+ str_exn e)] |}).
Proof.
  intros Hq. unfold save_query_to_csv_file. step. step.
  erewrite try_log_reraise
    by (eapply bind_raised; apply external_answer; exact Hq).
  reflexivity.
Qed.

Lemma save_query_to_csv_file_not_a_path (E : Env) (query file_path : value)
  (results : RowIterator) (w : world) :
  client_query E (w_trace w ++ [EAdapter "save_query_to_csv_file"]) query []
  = inr results ->
  (forall s, file_path <> VStr s) ->
  let e := TypeError ("expected str, bytes or os.PathLike object, not "
                      +:+ py_type_name file_path) in
  save_query_to_csv_file E query file_path w
  = (inl e,
     {| w_db := w_db w;
        w_fs := w_fs w;
        w_trace := (w_trace w ++ [EAdapter "save_query_to_csv_file"])
                   ++ [EQuery query []];
        w_log := (w_log w
                  ++ [(DEBUG, "Executing query and saving to CSV file: "
                              +:+ py_str E file_path)])
                 ++ [(ERROR, "Error saving query to CSV file: "
                             +:+ str_exn e)] |}).
Proof.
  intros Hq Hnot e.
  rewrite (save_query_to_csv_file_after_query E query file_path results w Hq).
  destruct file_path; try (now destruct (Hnot s));
    (erewrite try_log_reraise by reflexivity); reflexivity.
Qed.

Lemma save_query_to_csv_file_makedirs_raises (E : Env) (query : value)
  (path : string) (results : RowIterator) (w : world) (e : exn) :
  client_query E (w_trace w ++ [EAdapter "save_query_to_csv_file"]) query []
  = inr results ->
  makedirs_error E
    (((w_trace w ++ [EAdapter "save_query_to_csv_file"]) ++ [EQuery query []])
     ++ [EMakedirs (dirname path)])
    (w_fs w) (dirname path) = Some e ->
  save_query_to_csv_file E query (VStr path) w
  = (inl e,
     {| w_db := w_db w;
        w_fs := w_fs w;
        w_trace := ((w_trace w ++ [EAdapter "save_query_to_csv_file"])
                    ++ [EQuery query []]) ++ [EMakedirs (dirname path)];
        w_log := (w_log w
                  ++ [(DEBUG, "Executing query and saving to CSV file: "
                              +:+ path)])
                 ++ [(ERROR, "Error saving query to CSV file: "
                             +:+ str_exn e)] |}).
Proof.
  intros Hq He.
  rewrite (save_query_to_csv_file_after_query E query (VStr path) results w Hq).
  change (fspath (VStr path)) with (@ret string path). rewrite bind_ret.
  erewrite try_log_reraise by (apply export_steps_makedirs_raises; exact He).
  reflexivity.
Qed.

Lemma save_query_to_csv_file_open_raises (E : Env) (query : value)
  (path : string) (results : RowIterator) (w : world) (e : exn) :
  client_query E (w_trace w ++ [EAdapter "save_query_to_csv_file"]) query []
  = inr results ->
  makedirs_error E
    (((w_trace w ++ [EAdapter "save_query_to_csv_file"]) ++ [EQuery query []])
     ++ [EMakedirs (dirname path)])
    (w_fs w) (dirname path) = None ->
  open_error E
    ((((w_trace w ++ [EAdapter "save_query_to_csv_file"]) ++ [EQuery query []])
      ++ [EMakedirs (dirname path)]) ++ [EOpenWrite path])
    (fs_after_makedirs (w_fs w) (dirname path)) path = Some e ->
  save_query_to_csv_file E query (VStr path) w
  = (inl e,
     {| w_db := w_db w;
        w_fs := fs_after_makedirs (w_fs w) (dirname path);
        w_trace := (((w_trace w ++ [EAdapter "save_query_to_csv_file"])
                     ++ [EQuery query []]) ++ [EMakedirs (dirname path)])
                   ++ [EOpenWrite path];
        w_log := (w_log w
                  ++ [(DEBUG, "Executing query and saving to CSV file: "
                              +:+ path)])
                 ++ [(ERROR, "Error saving query to CSV file: "
                             +:+ str_exn e)] |}).
Proof.
  intros Hq Hmk He.
  rewrite (save_query_to_csv_file_after_query E query (VStr path) results w Hq).
  change (fspath (VStr path)) with (@ret string path). rewrite bind_ret.
  erewrite try_log_reraise
    by (apply export_steps_open_raises; [exact Hmk | exact He]).
  reflexivity.
Qed.

Lemma save_query_to_csv_file_ok (E : Env) (query : value) (path : string)
  (results : RowIterator) (w : world) :
  client_query E (w_trace w ++ [EAdapter "save_query_to_csv_file"]) query []
  = inr results ->
  os_accepts E
    ((w_trace w ++ [EAdapter "save_query_to_csv_file"]) ++ [EQuery query []])
    (w_fs w) path ->
  exists w',
    save_query_to_csv_file E query (VStr path) w
    = (inr ("Successfully saved " +:+ pretty (length (ri_rows results))
            +:+ " rows to " +:+ path), w')
    /\ w_db w' = w_db w
    /\ w_trace w'
       = (((w_trace w ++ [EAdapter "save_query_to_csv_file"])
           ++ [EQuery query []]) ++ [EMakedirs (dirname path)])
         ++ [EOpenWrite path]
    /\ w_log w'
       = (w_log w ++ [(DEBUG, "Executing query and saving to CSV file: "
                              +:+ path)])
         ++ [(DEBUG, "Query results saved to CSV file: " +:+ path
                     +:+ " with " +:+ pretty (length (ri_rows results))
                     +:+ " rows")]
    /\ fs_dirs (w_fs w')
       = fs_dirs (fs_after_makedirs (w_fs w) (dirname path))
    /\ get_file path (fs_files (w_fs w'))
       = Some (csv_of (ri_schema results) (ri_rows results)).
Proof.
  intros Hq Hos.
  rewrite (save_query_to_csv_file_after_query E query (VStr path) results w Hq).
  change (fspath (VStr path)) with (@ret string path). rewrite bind_ret.
  match goal with
  | |- context [try_except _ _ ?w1] =>
      destruct (export_steps_ok E "Query results saved to CSV file: " path
                  (ri_schema results) (ri_rows results) w1 Hos)
        as (w' & Hrun & Hdb & Htr & Hlog & Hdirs & Hfile)
  end.
  exists w'. split; [now apply try_except_returned|]. auto 10.
Qed.

(** *** [save_last_results_to_csv_file] *)

Lemma save_last_results_to_csv_file_empty (E : Env) (file_path : value)
  (w : world) :
  last_query_results (w_db w) = None ->
  save_last_results_to_csv_file E file_path w
  = (inl (ValueError
            "No previous query results available. Execute a query first."),
     {| w_db := w_db w; w_fs := w_fs w;
        w_trace := w_trace w ++ [EAdapter "save_last_results_to_csv_file"];
        w_log := w_log w |}).
Proof.
  intros Hnone. unfold save_last_results_to_csv_file. step. step.
  cbn [w_db]. now rewrite Hnone.
Qed.

(** The world in which [save_last_results_to_csv_file] reaches
    [os.makedirs]: the cache was read and the path logged. *)
Lemma save_last_results_to_csv_file_cached (E : Env) (file_path : value)
  (last : LastQuery) (w : world) :
  last_query_results (w_db w) = Some last ->
  save_last_results_to_csv_file E file_path w
  = try_except
      (do path <- fspath file_path;
       export_steps E "Last query results saved to CSV file: " path
         (lq_schema last) (lq_rows last))
      (fun e =>
         do _ <- logger ERROR ("Error saving last results to CSV file: "
                               +:+ str_exn e);
         raise e)
      {| w_db := w_db w;
         w_fs := w_fs w;
         w_trace := w_trace w ++ [EAdapter "save_last_results_to_csv_file"];
         w_log := w_log w
                  ++ [(DEBUG, "Saving last query results to CSV file: "
                              +:+ py_str E file_path)] |}.
Proof.
  intros Hlast. unfold save_last_results_to_csv_file. step. step.
  cbn [w_db]. rewrite Hlast. step. reflexivity.
Qed.

Lemma save_last_results_to_csv_file_makedirs_raises (E : Env) (path : string)
  (last : LastQuery) (w : world) (e : exn) :
  last_query_results (w_db w) = Some last ->
  makedirs_error E
    ((w_trace w ++ [EAdapter "save_last_results_to_csv_file"])
     ++ [EMakedirs (dirname path)])
    (w_fs w) (dirname path) = Some e ->
  save_last_results_to_csv_file E (VStr path) w
  = (inl e,
     {| w_db := w_db w;
        w_fs := w_fs w;
        w_trace := (w_trace w ++ [EAdapter "save_last_results_to_csv_file"])
                   ++ [EMakedirs (dirname path)];
        w_log := (w_log w
                  ++ [(DEBUG, "Saving last query results to CSV file: "
                              +:+ path)])
                 ++ [(ERROR, "Error saving last results to CSV file: "
                             +:+ str_exn e)] |}).
Proof.
  intros Hlast He.
  rewrite (save_last_results_to_csv_file_cached E (VStr path) last w Hlast).
  change (fspath (VStr path)) with (@ret string path). rewrite bind_ret.
  erewrite try_log_reraise by (apply export_steps_makedirs_raises; exact He).
  reflexivity.
Qed.



(** *** [describe_table] *)

Lemma describe_table_invalid (E : Env) (s : string) (w : world) :
  length (split "." s) <> 2 -> length (split "." s) <> 3 ->
  describe_table E (VStr s) w
  = (inl (ValueError ("Invalid table name: " +:+ s)),
     {| w_db := w_db w; w_fs := w_fs w;
        w_trace := w_trace w ++ [EAdapter "describe_table"];
        w_log := w_log w ++ [(DEBUG, "Describing table: " +:+ s)] |}).
Proof.
  intros H2 H3. unfold describe_table. step. step. step.
  apply Nat.eqb_neq in H2, H3. now rewrite H2, H3.
Qed.

Lemma describe_table_forwards (E : Env) (s : string) (w : world) :
  length (split "." s) = 2 \/ length (split "." s) = 3 ->
  describe_table E (VStr s) w
  = execute_query E (VStr (ddl_query (join "." (but_last (split "." s)))))
      [{| sp_name := "table_name"; sp_type := "STRING";
          sp_value := last_part (split "." s) |}]
      {| w_db := w_db w; w_fs := w_fs w;
         w_trace := w_trace w ++ [EAdapter "describe_table"];
         w_log := w_log w ++ [(DEBUG, "Describing table: " +:+ s)] |}.
Proof.
  intros Hn. unfold describe_table. step. step. step.
  assert (Htest : negb (Nat.eqb (length (split "." s)) 2)
                  && negb (Nat.eqb (length (split "." s)) 3) = false).
  { destruct Hn as [-> | ->]; reflexivity. }
  now rewrite Htest.
Qed.

Lemma describe_table_not_str (E : Env) (table_name : value) (w : world) :
  (forall s, table_name <> VStr s) ->
  describe_table E table_name w
  = (inl (AttributeError (py_repr_plain (py_type_name table_name)
                          +:+ " object has no attribute 'split'")),
     {| w_db := w_db w; w_fs := w_fs w;
        w_trace := w_trace w ++ [EAdapter "describe_table"];
        w_log := w_log w
                 ++ [(DEBUG, "Describing table: " +:+ py_str E table_name)] |}).
Proof.
  intros Hnot. unfold describe_table. step. step.
  destruct table_name; try reflexivity. now destruct (Hnot s).
Qed.

(** The trace of [execute_query] with parameters, whatever the answer. *)
Lemma execute_query_trace (E : Env) (query : value)
  (params : list ScalarQueryParameter) (w : world) :
  w_trace (snd (execute_query E query params w))
  = (w_trace w ++ [EAdapter "execute_query"]) ++ [EQuery query params].
Proof.
  unfold execute_query. step. step.
  destruct (client_query E (w_trace w ++ [EAdapter "execute_query"]) query
              params) as [e|results] eqn:Hq.
  - erewrite try_log_reraise
      by (eapply bind_raised; destruct params; apply external_answer;
          exact Hq).
    reflexivity.
  - erewrite try_except_returned
      by (erewrite bind_returned
            by (destruct params; apply external_answer; exact Hq);
          cbv zeta; step; step; reflexivity).
    reflexivity.
Qed.

Lemma execute_query_params_ok (E : Env) (query : value)
  (params : list ScalarQueryParameter) (w : world) (results : RowIterator) :
  client_query E (w_trace w ++ [EAdapter "execute_query"]) query params
  = inr results ->
  exists w',
    execute_query E query params w
    = (inr (map dict_of_items (ri_rows results)), w')
    /\ last_query_results (w_db w')
       = Some {| lq_rows := map dict_of_items (ri_rows results);
                 lq_schema := ri_schema results |}.
Proof.
  intros Hq. unfold execute_query. step. step.
  eexists. split.
  - erewrite try_except_returned; [reflexivity|].
    erewrite bind_returned
      by (destruct params; apply external_answer; exact Hq).
    cbv zeta. step. step. reflexivity.
  - reflexivity.
Qed.

(** ** What the handler makes of each method *)

Lemma handle_save_last_results_csv (E : Env) (arguments : Arguments) :
  handle_call_tool E "save-last-results-csv" arguments
  = try_except
      (if py_not arguments || negb (py_in "file_path" arguments) then
         raise (ValueError "Missing file_path argument")
       else
         do file_path <- subscript arguments "file_path";
         do result <- save_last_results_to_csv_file E file_path;
         ret [TextContent result])
      (fun e => ret [TextContent ("Error: " +:+ str_exn e)]).
Proof. reflexivity. Qed.

Lemma handle_describe_table (E : Env) (arguments : Arguments) :
  handle_call_tool E "describe-table" arguments
  = try_except
      (if py_not arguments || negb (py_in "table_name" arguments) then
         raise (ValueError "Missing table_name argument")
       else
         do table_name <- subscript arguments "table_name";
         do results <- describe_table E table_name;
         ret [TextContent (py_str E (VList (map VDict results)))])
      (fun e => ret [TextContent ("Error: " +:+ str_exn e)]).
Proof. reflexivity. Qed.

Lemma handle_execute_query (E : Env) (arguments : Arguments) :
  handle_call_tool E "execute-query" arguments
  = try_except
      (if py_not arguments || negb (py_in "query" arguments) then
         raise (ValueError "Missing query argument")
       else
         do query <- subscript arguments "query";
         do results <- execute_query E query [];
         ret [TextContent (py_str E (VList (map VDict results)))])
      (fun e => ret [TextContent ("Error: " +:+ str_exn e)]).
Proof. reflexivity. Qed.

Lemma handle_save_csv_file (E : Env) (arguments : Arguments) :
  handle_call_tool E "save-csv-file" arguments
  = try_except
      (if py_not arguments || negb (py_in "query" arguments)
          || negb (py_in "file_path" arguments) then
         raise (ValueError "Missing query or file_path argument")
       else
         do query <- subscript arguments "query";
         do file_path <- subscript arguments "file_path";
         do result <- save_query_to_csv_file E query file_path;
         ret [TextContent result])
      (fun e => ret [TextContent ("Error: " +:+ str_exn e)]).
Proof. reflexivity. Qed.

Lemma handle_save_csv_auto (E : Env) (arguments : Arguments) :
  handle_call_tool E "save-csv-auto" arguments
  = try_except
      (if py_not arguments || negb (py_in "query" arguments) then
         raise (ValueError "Missing query argument")
       else
         do directory <- py_get arguments "directory" (VStr ".");
         do base_name <- py_get arguments "base_name" (VStr "bigquery_export");
         do filename <- generate_csv_filename E base_name;
         do directory <- fspath directory;
         let file_path := path_join directory filename in
         do query <- subscript arguments "query";
         do result <- save_query_to_csv_file E query (VStr file_path);
         ret [TextContent result])
      (fun e => ret [TextContent ("Error: " +:+ str_exn e)]).
Proof. reflexivity. Qed.

Lemma subscript_found (d : gmap string value) (key : string) (v : value) :
  d !! key = Some v -> subscript (Some d) key = ret v.
Proof. intros H. unfold subscript. now rewrite H. Qed.

Lemma handle_execute_query_run (E : Env) (d : gmap string value)
  (query : value) (w : world) :
  d !! "query" = Some query ->
  handle_call_tool E "execute-query" (Some d) w
  = (inr [TextContent
            match fst (execute_query E query [] w) with
            | inr results => py_str E (VList (map VDict results))
            | inl e => "Error: " +:+ str_exn e
            end],
     snd (execute_query E query [] w)).
Proof.
  intros Hd. rewrite handle_execute_query.
  rewrite (py_not_false_of_lookup d _ _ Hd), (py_in_true_of_lookup d _ _ Hd).
  cbn [orb negb]. rewrite (subscript_found d _ _ Hd), bind_ret.
  unfold try_except, bind.
  now destruct (execute_query E query [] w) as [[e|results] w'].
Qed.

Lemma handle_describe_table_run (E : Env) (d : gmap string value)
  (table_name : value) (w : world) :
  d !! "table_name" = Some table_name ->
  handle_call_tool E "describe-table" (Some d) w
  = (inr [TextContent
            match fst (describe_table E table_name w) with
            | inr results => py_str E (VList (map VDict results))
            | inl e => "Error: " +:+ str_exn e
            end],
     snd (describe_table E table_name w)).
Proof.
  intros Hd. rewrite handle_describe_table.
  rewrite (py_not_false_of_lookup d _ _ Hd), (py_in_true_of_lookup d _ _ Hd).
  cbn [orb negb]. rewrite (subscript_found d _ _ Hd), bind_ret.
  unfold try_except, bind.
  now destruct (describe_table E table_name w) as [[e|results] w'].
Qed.

Lemma handle_save_csv_file_run (E : Env) (d : gmap string value)
  (query file_path : value) (w : world) :
  d !! "query" = Some query ->
  d !! "file_path" = Some file_path ->
  handle_call_tool E "save-csv-file" (Some d) w
  = (inr [TextContent
            match fst (save_query_to_csv_file E query file_path w) with
            | inr result => result
            | inl e => "Error: " +:+ str_exn e
            end],
     snd (save_query_to_csv_file E query file_path w)).
Proof.
  intros Hquery Hpath. rewrite handle_save_csv_file.
  rewrite (py_not_false_of_lookup d _ _ Hquery),
    (py_in_true_of_lookup d _ _ Hquery), (py_in_true_of_lookup d _ _ Hpath).
  cbn [orb negb].
  rewrite (subscript_found d _ _ Hquery), bind_ret,
    (subscript_found d _ _ Hpath), bind_ret.
  unfold try_except, bind.
  now destruct (save_query_to_csv_file E query file_path w) as [[e|result] w'].
Qed.

Lemma handle_save_last_results_run (E : Env) (d : gmap string value)
  (file_path : value) (w : world) :
  d !! "file_path" = Some file_path ->
  handle_call_tool E "save-last-results-csv" (Some d) w
  = (inr [TextContent
            match fst (save_last_results_to_csv_file E file_path w) with
            | inr result => result
            | inl e => "Error: " +:+ str_exn e
            end],
     snd (save_last_results_to_csv_file E file_path w)).
Proof.
  intros Hpath. rewrite handle_save_last_results_csv.
  rewrite (py_not_false_of_lookup d _ _ Hpath), (py_in_true_of_lookup d _ _ Hpath).
  cbn [orb negb]. rewrite (subscript_found d _ _ Hpath), bind_ret.
  unfold try_except, bind.
  now destruct (save_last_results_to_csv_file E file_path w) as [[e|result] w'].
Qed.

Lemma handle_save_last_results_missing (E : Env) (arguments : Arguments)
  (w : world) :
  py_not arguments || negb (py_in "file_path" arguments) = true ->
  handle_call_tool E "save-last-results-csv" arguments w
  = (inr [TextContent "Error: Missing file_path argument"], w).
Proof. intros H. rewrite handle_save_last_results_csv, H. reflexivity. Qed.

(** The argument bag either lacks [file_path], or is a dictionary that
    holds it. *)
Lemma file_path_cases (arguments : Arguments) :
  py_not arguments || negb (py_in "file_path" arguments) = true
  \/ exists d v, arguments = Some d /\ d !! "file_path" = Some v.
Proof.
  destruct arguments as [d|]; [|now left].
  destruct (d !! "file_path") as [v|] eqn:Hv; [right; eauto|].
  left. unfold py_in. now rewrite Hv, orb_true_r.
Qed.

(** ** Computations that leave the database object alone *)

Lemma preserves_db_ret {A} (a : A) : preserves_db (ret a).
Proof. intros w. reflexivity. Qed.

Lemma preserves_db_raise {A} (e : exn) : preserves_db (@raise A e).
Proof. intros w. reflexivity. Qed.

Lemma preserves_db_lift {A} (r : exn + A) : preserves_db (lift r).
Proof. intros w. reflexivity. Qed.

Lemma preserves_db_emit (ev : event) : preserves_db (emit ev).
Proof. intros w. reflexivity. Qed.

Lemma preserves_db_logger (lv : level) (msg : string) :
  preserves_db (logger lv msg).
Proof. intros w. reflexivity. Qed.

Lemma preserves_db_get_db : preserves_db get_db.
Proof. intros w. reflexivity. Qed.

Lemma preserves_db_external {A} (ev : event) (answer : list event -> exn + A) :
  preserves_db (external ev answer).
Proof. intros w. reflexivity. Qed.

Lemma preserves_db_bind {A B} (m : M A) (k : A -> M B) :
  preserves_db m -> (forall a, preserves_db (k a)) -> preserves_db (bind m k).
Proof.
  intros Hm Hk w. unfold bind. specialize (Hm w).
  destruct (m w) as [[e|a] w']; simpl in *; [exact Hm|].
  now rewrite Hk.
Qed.

Lemma preserves_db_try_except {A} (m : M A) (h : exn -> M A) :
  preserves_db m -> (forall e, preserves_db (h e)) ->
  preserves_db (try_except m h).
Proof.
  intros Hm Hh w. unfold try_except. specialize (Hm w).
  destruct (m w) as [[e|a] w']; simpl in *; [|exact Hm].
  now rewrite Hh.
Qed.

Lemma preserves_db_fspath (v : value) : preserves_db (fspath v).
Proof. destruct v; intros w; reflexivity. Qed.

Lemma preserves_db_subscript (arguments : Arguments) (key : string) :
  preserves_db (subscript arguments key).
Proof.
  unfold subscript. destruct arguments as [d|]; [|intros w; reflexivity].
  destruct (d !! key); intros w; reflexivity.
Qed.

Lemma preserves_db_py_get (arguments : Arguments) (key : string) (dflt : value) :
  preserves_db (py_get arguments key dflt).
Proof. destruct arguments; intros w; reflexivity. Qed.

Lemma preserves_db_os_makedirs (E : Env) (p : string) :
  preserves_db (os_makedirs E p).
Proof.
  intros w. rewrite os_makedirs_run.
  now destruct (makedirs_error E _ _ _).
Qed.

Lemma preserves_db_open_w (E : Env) (p : string) : preserves_db (open_w E p).
Proof.
  intros w. rewrite open_w_run.
  now destruct (open_error E _ _ _).
Qed.

Lemma preserves_db_writerow (p : string) (cells : list value) :
  preserves_db (writerow p cells).
Proof. intros w. reflexivity. Qed.

Lemma preserves_db_write_headers (p : string) (schema : list SchemaField) :
  preserves_db (write_headers p schema).
Proof. destruct schema; intros w; reflexivity. Qed.

Lemma preserves_db_write_rows (p : string)
  (rows : list (list (string * value))) (n : nat) :
  preserves_db (write_rows p rows n).
Proof.
  revert n. induction rows as [|row rest IH]; intros n; simpl.
  - apply preserves_db_ret.
  - apply preserves_db_bind; [apply preserves_db_writerow|]. intros _. apply IH.
Qed.

Create HintDb preserves.

#[local] Hint Resolve preserves_db_ret preserves_db_raise preserves_db_lift
  preserves_db_emit preserves_db_logger preserves_db_get_db
  preserves_db_external preserves_db_fspath
  preserves_db_subscript preserves_db_py_get preserves_db_os_makedirs
  preserves_db_open_w preserves_db_writerow preserves_db_write_headers
  preserves_db_write_rows : preserves.

Ltac preserves_steps :=
  repeat match goal with
    | |- preserves_db (bind _ _) => apply preserves_db_bind
    | |- preserves_db (try_except _ _) => apply preserves_db_try_except
    | |- preserves_db ((fun _ => _) _) => cbv beta
    | |- preserves_db (let _ := _ in _) => cbv zeta
    | |- forall _, _ => intro
    | |- _ => solve [auto with preserves]
    end.

Lemma preserves_db_save_query_to_csv_file (E : Env) (query file_path : value) :
  preserves_db (save_query_to_csv_file E query file_path).
Proof. unfold save_query_to_csv_file. preserves_steps. Qed.

Lemma preserves_db_generate_csv_filename (E : Env) (base_name : value) :
  preserves_db (generate_csv_filename E base_name).
Proof. unfold generate_csv_filename. preserves_steps. Qed.

Lemma preserves_db_save_last_results_to_csv_file (E : Env)
  (file_path : value) :
  preserves_db (save_last_results_to_csv_file E file_path).
Proof.
  unfold save_last_results_to_csv_file.
  apply preserves_db_bind; [apply preserves_db_emit|]. intros _.
  apply preserves_db_bind; [apply preserves_db_get_db|]. intros self.
  destruct (last_query_results self); preserves_steps.
Qed.

Lemma preserves_db_list_tables_call (E : Env) (a : value) :
  preserves_db (list_tables E [a]).
Proof. unfold list_tables. apply preserves_db_raise. Qed.

#[local] Hint Resolve preserves_db_save_query_to_csv_file
  preserves_db_generate_csv_filename
  preserves_db_save_last_results_to_csv_file
  preserves_db_list_tables_call : preserves.

Lemma preserves_db_save_csv_file (E : Env) (arguments : Arguments) :
  preserves_db (handle_call_tool E "save-csv-file" arguments).
Proof.
  rewrite handle_save_csv_file.
  destruct (py_not arguments || negb (py_in "query" arguments)
            || negb (py_in "file_path" arguments)); preserves_steps.
Qed.


Lemma preserves_db_handle_call_tool (E : Env) (tool_name : string)
  (arguments : Arguments) :
  tool_name <> "execute-query" -> tool_name <> "describe-table" ->
  preserves_db (handle_call_tool E tool_name arguments).
Proof.
  intros Hexec Hdesc. unfold handle_call_tool, call_tool_body.
  apply String.eqb_neq in Hexec, Hdesc. rewrite Hexec, Hdesc.
  apply preserves_db_try_except; [|preserves_steps].
  repeat match goal with
    | |- preserves_db (if ?b then _ else _) => destruct b
    end; preserves_steps.
Qed.

(** From any state, requests of any sessions that do not go through
    [execute_query] leave the database object, and so an empty cache, as
    they were. *)
Lemma db_unchanged_without_query (E : Env) (reqs : list (session * request)) :
  forall w, Forall not_a_query reqs -> w_db (serve_all E reqs w) = w_db w.
Proof.
  induction reqs as [|[s r] rest IH]; intros w Hreqs; [reflexivity|].
  inversion Hreqs as [|? ? Hr Hrest]; subst. simpl. rewrite IH by exact Hrest.
  destruct r as [|tool_name arguments]; [reflexivity|].
  destruct Hr as [Hexec Hdesc]. unfold serve.
  apply (preserves_db_bind (handle_call_tool E tool_name arguments)).
  - now apply preserves_db_handle_call_tool.
  - intros content. apply preserves_db_ret.
Qed.

Lemma serve_call_tool (E : Env) (s : session) (tool_name : string)
  (arguments : Arguments) (w : world) :
  serve E s (CallToolRequest tool_name arguments) w
  = (match fst (handle_call_tool E tool_name arguments w) with
     | inr content => inr (CallToolResult content)
     | inl e => inl e
     end,
     snd (handle_call_tool E tool_name arguments w)).
Proof.
  unfold serve, bind.
  now destruct (handle_call_tool E tool_name arguments w) as [[e|content] w'].
Qed.

(** ** The empty cache *)

(** C6, as the code has it: the cache is one for all sessions.  From a
    state with an empty cache, after any requests of any sessions none of
    which names [execute-query] or [describe-table], [save-last-results-csv]
    in any session and with any argument bag returns an error text; the
    directories and files, the database object and the log are as before,
    and no directory is asked for and no file is opened.  With a
    [file_path] the text is that of the empty-cache error. *)
Theorem save_last_results_empty_cache (E : Env)
  (reqs : list (session * request)) (s : session) (arguments : Arguments)
  (w0 : world) :
  last_query_results (w_db w0) = None ->
  Forall not_a_query reqs ->
  let w := serve_all E reqs w0 in
  let out := serve E s (CallToolRequest "save-last-results-csv" arguments) w in
  (exists msg, fst out = inr (CallToolResult [TextContent ("Error: " +:+ msg)]))
  /\ w_fs (snd out) = w_fs w
  /\ w_db (snd out) = w_db w
  /\ w_log (snd out) = w_log w
  /\ List.filter is_fs_event (w_trace (snd out))
     = List.filter is_fs_event (w_trace w)
  /\ (forall d v, arguments = Some d -> d !! "file_path" = Some v ->
      fst out
      = inr (CallToolResult
               [TextContent
                  "Error: No previous query results available. Execute a query first."])).
Proof.
  intros Hnone0 Hreqs w out.
  assert (Hnone : last_query_results (w_db w) = None).
  { subst w. now rewrite (db_unchanged_without_query E reqs w0 Hreqs). }
  subst out. rewrite serve_call_tool.
  destruct (file_path_cases arguments) as [Hmiss | (d & v & -> & Hv)].
  - rewrite (handle_save_last_results_missing E arguments w Hmiss). cbn.
    repeat split; eauto.
    intros d v -> Hv. unfold py_in in Hmiss.
    rewrite (py_not_false_of_lookup d _ _ Hv), Hv in Hmiss. discriminate Hmiss.
  - rewrite (handle_save_last_results_run E d v w Hv).
    rewrite (save_last_results_to_csv_file_empty E v w Hnone). cbn.
    repeat split; eauto.
    rewrite List.filter_app. cbn. apply app_nil_r.
Qed.

Lemma save_last_results_empty_cache_witness :
  let w := serve_all demo_env
             [ (1, CallToolRequest "save-csv-file"
                     (Some {[ "query" := VStr "SELECT 1";
                              "file_path" := VStr "/tmp/first.csv" ]})) ]
             fresh_world in
  let out := serve demo_env 2
               (CallToolRequest "save-last-results-csv"
                  (Some {[ "file_path" := VStr "/tmp/out.csv" ]})) w in
  fst out
  = inr (CallToolResult
           [TextContent
              "Error: No previous query results available. Execute a query first."])
  /\ w_fs (snd out) = w_fs w.
Proof.
  intros w out.
  destruct (save_last_results_empty_cache demo_env
              [ (1, CallToolRequest "save-csv-file"
                      (Some {[ "query" := VStr "SELECT 1";
                               "file_path" := VStr "/tmp/first.csv" ]})) ]
              2 (Some {[ "file_path" := VStr "/tmp/out.csv" ]}) fresh_world)
    as (_ & Hfs & _ & _ & _ & Htext).
  - reflexivity.
  - repeat constructor; discriminate.
  - split.
    + apply (Htext {[ "file_path" := VStr "/tmp/out.csv" ]}
               (VStr "/tmp/out.csv")); reflexivity.
    + exact Hfs.
Defined.

(** C6, as stated, fails: session 2 has made no call at all, session 1 has
    run a query, and [save-last-results-csv] in session 2 is answered with
    a success text, not an error. *)
Lemma fresh_session_reads_shared_cache :
  ~ empty_cache_error_in_fresh_session demo_env.
Proof.
  intros Hfresh.
  destruct (Hfresh
              [ (1, CallToolRequest "execute-query"
                      (Some {[ "query" := VStr "SELECT 1" ]})) ]
              2 (Some {[ "file_path" := VStr "/tmp/out.csv" ]}) fresh_world)
    as [msg Hmsg].
  - reflexivity.
  - constructor; [cbn; intros Hs; discriminate Hs | constructor].
  - vm_compute in Hmsg. discriminate Hmsg.
Qed.

Example fresh_session_writes_other_sessions_rows :
  let w := serve_all demo_env
             [ (1, CallToolRequest "execute-query"
                     (Some {[ "query" := VStr "SELECT 1" ]})) ]
             fresh_world in
  fst (serve demo_env 2
         (CallToolRequest "save-last-results-csv"
            (Some {[ "file_path" := VStr "/tmp/out.csv" ]})) w)
  = inr (CallToolResult
           [TextContent "Successfully saved 2 rows to /tmp/out.csv"]).
Proof. vm_compute. reflexivity. Qed.

(** ** Table names *)

(** C7: [describe-table] with a string [table_name].  When the name does
    not split on dots into 2 or 3 segments the result is the error text of
    an invalid table name, the trace grows by the entry of
    [describe_table] only and the log by its debug line: nothing reaches
    the warehouse.  When it splits into 2 or 3 segments, [execute_query]
    is entered and the DDL query for all segments but the last, with the
    last segment as the parameter [table_name], is sent to the
    warehouse. *)
Theorem describe_table_segment_check (E : Env) (d : gmap string value)
  (s : string) (w : world) :
  d !! "table_name" = Some (VStr s) ->
  let out := handle_call_tool E "describe-table" (Some d) w in
  let n := length (split "." s) in
  (n <> 2 -> n <> 3 ->
   out = (inr [TextContent ("Error: Invalid table name: " +:+ s)],
          {| w_db := w_db w; w_fs := w_fs w;
             w_trace := w_trace w ++ [EAdapter "describe_table"];
             w_log := w_log w ++ [(DEBUG, "Describing table: " +:+ s)] |}))
  /\ (n = 2 \/ n = 3 ->
      w_trace (snd out)
      = (w_trace w ++ [EAdapter "describe_table"]
           ++ [EAdapter "execute_query"])
        ++ [EQuery (VStr (ddl_query (join "." (but_last (split "." s)))))
              [{| sp_name := "table_name"; sp_type := "STRING";
                  sp_value := last_part (split "." s) |}]]).
Proof.
  intros Hd out n. subst out.
  rewrite (handle_describe_table_run E d (VStr s) w Hd). split.
  - intros H2 H3. now rewrite (describe_table_invalid E s w H2 H3).
  - intros Hn. rewrite (describe_table_forwards E s w Hn). cbn [snd].
    rewrite execute_query_trace. cbn [w_trace].
    now rewrite <- !app_assoc.
Qed.

Lemma describe_table_segment_check_witness :
  handle_call_tool demo_env "describe-table"
    (Some {[ "table_name" := VStr "a.b.c.d" ]}) fresh_world
  = (inr [TextContent "Error: Invalid table name: a.b.c.d"],
     {| w_db := w_db fresh_world; w_fs := w_fs fresh_world;
        w_trace := [EAdapter "describe_table"];
        w_log := w_log fresh_world
                 ++ [(DEBUG, "Describing table: a.b.c.d")] |})
  /\ w_trace (snd (handle_call_tool demo_env "describe-table"
                     (Some {[ "table_name" := VStr "p.d.t" ]}) fresh_world))
     = [EAdapter "describe_table"; EAdapter "execute_query";
        EQuery (VStr (ddl_query "p.d"))
          [{| sp_name := "table_name"; sp_type := "STRING";
              sp_value := "t" |}]].
Proof.
  split.
  - apply (describe_table_segment_check demo_env
             {[ "table_name" := VStr "a.b.c.d" ]} "a.b.c.d" fresh_world).
    + reflexivity.
    + simpl. lia.
    + simpl. lia.
  - apply (describe_table_segment_check demo_env
             {[ "table_name" := VStr "p.d.t" ]} "p.d.t" fresh_world).
    + reflexivity.
    + right. reflexivity.
Defined.

(** ** One cache for all sessions *)





(** ** Which operations write the cache *)




Example save_last_after_export :
  let export := handle_call_tool demo_env "save-csv-file"
                  (Some {[ "query" := VStr "SELECT 1";
                           "file_path" := VStr "/tmp/out.csv" ]})
                  fresh_world in
  fst (handle_call_tool demo_env "save-last-results-csv"
         (Some {[ "file_path" := VStr "/tmp/again.csv" ]}) (snd export))
  = inr [TextContent
           "Error: No previous query results available. Execute a query first."].
Proof. vm_compute. reflexivity. Qed.

(** ** Parent directories *)

Lemma drop_until_slash_none (cs : list ascii) :
  (forall c, In c cs -> is_slash c = false) -> drop_until_slash cs = [].
Proof.
  induction cs as [|c cs IH]; intros Hcs; simpl; [reflexivity|].
  rewrite (Hcs c) by (left; reflexivity).
  apply IH. intros c' Hc'. apply Hcs. now right.
Qed.

Lemma count_char_none (path : string) :
  count_char "/" path = 0 ->
  forall c, In c (list_ascii_of_string path) -> is_slash c = false.
Proof.
  induction path as [|c' path IH]; simpl; intros Hcount c Hc; [contradiction|].
  unfold is_slash in *.
  destruct (Ascii.eqb c' "/") eqn:Hc'; [discriminate Hcount|].
  destruct Hc as [<- | Hc]; [exact Hc' | now apply IH].
Qed.

(** A path without a slash has the empty directory part. *)
Lemma dirname_bare_filename (path : string) :
  count_char "/" path = 0 -> dirname path = "".
Proof.
  intros Hcount. unfold dirname.
  rewrite drop_until_slash_none; [reflexivity|].
  intros c Hc. apply (count_char_none path Hcount). now apply in_rev.
Qed.

Lemma save_query_to_csv_file_bare (E : Env) (query : value) (path : string)
  (results : RowIterator) (w : world) :
  client_query E (w_trace w ++ [EAdapter "save_query_to_csv_file"]) query []
  = inr results ->
  count_char "/" path = 0 ->
  save_query_to_csv_file E query (VStr path) w
  = (inl (FileNotFoundError ""),
     {| w_db := w_db w;
        w_fs := w_fs w;
        w_trace := ((w_trace w ++ [EAdapter "save_query_to_csv_file"])
                    ++ [EQuery query []]) ++ [EMakedirs ""];
        w_log := (w_log w
                  ++ [(DEBUG, "Executing query and saving to CSV file: "
                              +:+ path)])
                 ++ [(ERROR, "Error saving query to CSV file: "
                             +:+ str_exn (FileNotFoundError ""))] |}).
Proof.
  intros Hq Hbare.
  rewrite (save_query_to_csv_file_makedirs_raises E query path results w
             (FileNotFoundError "") Hq).
  - now rewrite (dirname_bare_filename path Hbare).
  - rewrite (dirname_bare_filename path Hbare). apply makedirs_error_empty.
Qed.

(** C9, the code at the inputs of the claim: for a [file_path] without a
    slash, [save-csv-file] runs the query, then [os.makedirs] is called on
    the empty directory part and raises; the result is the text of that
    error, no file is opened, the directories and files are as before, and
    the log has the debug line of the entry and the error line of the
    [except] clause. *)
Theorem save_csv_file_bare_filename_fails (E : Env) (d : gmap string value)
  (query : value) (path : string) (results : RowIterator) (w : world) :
  d !! "query" = Some query ->
  d !! "file_path" = Some (VStr path) ->
  count_char "/" path = 0 ->
  client_query E (w_trace w ++ [EAdapter "save_query_to_csv_file"]) query []
  = inr results ->
  handle_call_tool E "save-csv-file" (Some d) w
  = (inr [TextContent "Error: [Errno 2] No such file or directory: ''"],
     {| w_db := w_db w;
        w_fs := w_fs w;
        w_trace := ((w_trace w ++ [EAdapter "save_query_to_csv_file"])
                    ++ [EQuery query []]) ++ [EMakedirs ""];
        w_log := (w_log w
                  ++ [(DEBUG, "Executing query and saving to CSV file: "
                              +:+ path)])
                 ++ [(ERROR,
                      "Error saving query to CSV file: [Errno 2] No such file or directory: ''")] |}).
Proof.
  intros Hquery Hpath Hbare Hq.
  rewrite (handle_save_csv_file_run E d query (VStr path) w Hquery Hpath).
  now rewrite (save_query_to_csv_file_bare E query path results w Hq Hbare).
Qed.

Lemma save_csv_file_bare_filename_fails_witness :
  handle_call_tool demo_env "save-csv-file"
    (Some {[ "query" := VStr "SELECT 1"; "file_path" := VStr "data.csv" ]})
    fresh_world
  = (inr [TextContent "Error: [Errno 2] No such file or directory: ''"],
     {| w_db := w_db fresh_world;
        w_fs := w_fs fresh_world;
        w_trace := [EAdapter "save_query_to_csv_file";
                    EQuery (VStr "SELECT 1") [];
                    EMakedirs ""];
        w_log := w_log fresh_world
                 ++ [(DEBUG, "Executing query and saving to CSV file: data.csv");
                     (ERROR,
                      "Error saving query to CSV file: [Errno 2] No such file or directory: ''")] |}).
Proof.
  apply (save_csv_file_bare_filename_fails demo_env
           {[ "query" := VStr "SELECT 1"; "file_path" := VStr "data.csv" ]}
           (VStr "SELECT 1") "data.csv" demo_result fresh_world);
    reflexivity.
Defined.


Example save_csv_auto_default_directory :
  fst (handle_call_tool demo_env "save-csv-auto"
         (Some {[ "query" := VStr "SELECT 1" ]}) fresh_world)
  = inr [TextContent
           "Successfully saved 2 rows to ./bigquery_export_20240102_030405.csv"].
Proof. vm_compute. reflexivity. Qed.

(** What the reviewed paths do in the model: a path that ends in a slash
    and a path whose directory part is a file are refused. *)
Example save_csv_file_trailing_slash :
  fst (handle_call_tool demo_env "save-csv-file"
         (Some {[ "query" := VStr "SELECT 1";
                  "file_path" := VStr "exports/" ]}) fresh_world)
  = inr [TextContent "Error: [Errno 21] Is a directory: 'exports/'"].
Proof. vm_compute. reflexivity. Qed.

Example save_csv_file_below_a_file :
  let w := snd (handle_call_tool demo_env "save-csv-file"
                  (Some {[ "query" := VStr "SELECT 1";
                           "file_path" := VStr "a/b" ]}) fresh_world) in
  fst (handle_call_tool demo_env "save-csv-file"
         (Some {[ "query" := VStr "SELECT 1";
                  "file_path" := VStr "a/b/out.csv" ]}) w)
  = inr [TextContent "Error: [Errno 17] File exists: 'a/b'"].
Proof. vm_compute. reflexivity. Qed.

(** * Further properties of the adapter and the dispatcher *)

(** ** The constructor *)

(** X1: a falsy project is rejected with "Project is required" and, the
    project given, a falsy location with "Location is required", both
    before the key file is read or the client is built. *)
Theorem init_requires_project_and_location (E : Env)
  (project location key_file filter : value) :
  (truthy project = false ->
   BigQueryDatabase_init E [project; location; key_file; filter]
   = inl (ValueError "Project is required"))
  /\ (truthy project = true -> truthy location = false ->
      BigQueryDatabase_init E [project; location; key_file; filter]
      = inl (ValueError "Location is required")).
Proof.
  split.
  - intros Hp. unfold BigQueryDatabase_init. now rewrite Hp.
  - intros Hp Hl. unfold BigQueryDatabase_init. now rewrite Hp, Hl.
Qed.

Lemma init_requires_project_and_location_witness :
  BigQueryDatabase_init demo_env [VNone; VStr "EU"; VNone; VList []]
  = inl (ValueError "Project is required")
  /\ BigQueryDatabase_init demo_env [VStr "proj"; VStr ""; VNone; VList []]
     = inl (ValueError "Location is required").
Proof.
  split.
  - apply (init_requires_project_and_location demo_env VNone (VStr "EU")
             VNone (VList [])). reflexivity.
  - apply (init_requires_project_and_location demo_env (VStr "proj") (VStr "")
             VNone (VList [])); reflexivity.
Defined.

(** X2: with project and location given, a key file that cannot be
    loaded is reported as [ValueError] "Invalid key file: " followed by the
    text of the loader's exception, whatever the client constructor would
    do. *)
Theorem init_invalid_key_file (E : Env)
  (project location key_file filter : value) (e : exn) :
  truthy project = true -> truthy location = true -> truthy key_file = true ->
  from_service_account_file E key_file = inl e ->
  BigQueryDatabase_init E [project; location; key_file; filter]
  = inl (ValueError ("Invalid key file: " +:+ str_exn e)).
Proof.
  intros Hp Hl Hk He. unfold BigQueryDatabase_init.
  now rewrite Hp, Hl, Hk, He.
Qed.

Lemma init_invalid_key_file_witness :
  BigQueryDatabase_init demo_env_no_key
    [VStr "proj"; VStr "EU"; VStr "/no/key.json"; VList []]
  = inl (ValueError
           "Invalid key file: [Errno 2] No such file or directory: '/no/key.json'").
Proof.
  apply (init_invalid_key_file demo_env_no_key (VStr "proj") (VStr "EU")
           (VStr "/no/key.json") (VList [])
           (FileNotFoundError "/no/key.json")); reflexivity.
Defined.

(** X3: every database object that the constructor returns was given
    exactly four arguments with a truthy project and location, keeps the
    fourth as its [datasets_filter], has an empty last-result cache, and
    has no credentials when the key file is falsy. *)
Theorem init_result_shape (E : Env) (args : list value) (db : BigQueryDatabase) :
  BigQueryDatabase_init E args = inr db ->
  exists project location key_file filter,
    args = [project; location; key_file; filter]
    /\ truthy project = true /\ truthy location = true
    /\ datasets_filter db = filter
    /\ last_query_results db = None
    /\ client_project (client db) = project
    /\ client_location (client db) = location
    /\ (truthy key_file = false -> client_credentials (client db) = None).
Proof.
  intros H.
  destruct args as [|project [|location [|key_file [|filter [|extra rest]]]]];
    try discriminate H.
  exists project, location, key_file, filter.
  unfold BigQueryDatabase_init in H.
  destruct (truthy project); [|discriminate H].
  destruct (truthy location); [|discriminate H].
  cbn [negb] in H.
  destruct (truthy key_file).
  - destruct (from_service_account_file E key_file); [discriminate H|].
    destruct (client_ctor E _ _ _); [discriminate H|].
    injection H as <-. cbn. repeat split; auto. discriminate.
  - destruct (client_ctor E _ _ _); [discriminate H|].
    injection H as <-. cbn. repeat split; auto.
Qed.

Lemma init_result_shape_witness :
  exists db,
    BigQueryDatabase_init demo_env [VStr "proj"; VStr "EU"; VNone; VList []]
    = inr db
    /\ last_query_results db = None
    /\ client_credentials (client db) = None.
Proof.
  eexists. split; [reflexivity|].
  destruct (init_result_shape demo_env
              [VStr "proj"; VStr "EU"; VNone; VList []] _ eq_refl)
    as (p & l & k & f & Hargs & _ & _ & _ & Hnone & _ & _ & Hcred).
  split; [exact Hnone|]. apply Hcred. now injection Hargs as <- <- <- <-.
Defined.

(** ** Queries *)

(** X4: when the warehouse rejects the query of [execute-query] with [e],
    the result is the text "Error: " followed by [str(e)]; the database
    object, its cache included, is as before, no directory is asked for
    and no file is opened, and the log grows by the debug line of the
    entry and the error line of the [except] clause. *)
Theorem execute_query_failure_keeps_cache (E : Env) (d : gmap string value)
  (query : value) (e : exn) (w : world) :
  d !! "query" = Some query ->
  client_query E (w_trace w ++ [EAdapter "execute_query"]) query [] = inl e ->
  handle_call_tool E "execute-query" (Some d) w
  = (inr [TextContent ("Error: " +:+ str_exn e)],
     {| w_db := w_db w;
        w_fs := w_fs w;
        w_trace := (w_trace w ++ [EAdapter "execute_query"])
                   ++ [EQuery query []];
        w_log := (w_log w ++ [(DEBUG, "Executing query: " +:+ py_str E query)])
                 ++ [(ERROR, "Database error executing query: "
                             +:+ str_exn e)] |}).
Proof.
  intros Hd He. rewrite (handle_execute_query_run E d query w Hd).
  now rewrite (execute_query_raises E query w e He).
Qed.

Lemma execute_query_failure_keeps_cache_witness :
  handle_call_tool demo_env "execute-query" (Some {[ "query" := VInt 7 ]})
    fresh_world
  = (inr [TextContent "Error: 400 query is not a string"],
     {| w_db := w_db fresh_world;
        w_fs := w_fs fresh_world;
        w_trace := [EAdapter "execute_query"; EQuery (VInt 7) []];
        w_log := w_log fresh_world
                 ++ [(DEBUG, "Executing query: <value>");
                     (ERROR,
                      "Database error executing query: 400 query is not a string")] |}).
Proof.
  apply (execute_query_failure_keeps_cache demo_env {[ "query" := VInt 7 ]}
           (VInt 7) (BackendError "400 query is not a string") fresh_world);
    reflexivity.
Defined.

(** ** Rows as dictionaries *)

Lemma dict_set_keys (k : string) (v : value) (d : list (string * value)) :
  map fst (dict_set k v d)
  = if existsb (String.eqb k) (map fst d) then map fst d else map fst d ++ [k].
Proof.
  induction d as [|[k' v'] d IH]; simpl; [reflexivity|].
  destruct (String.eqb_spec k k') as [->|Hne]; simpl; [reflexivity|].
  rewrite IH. now destruct (existsb (String.eqb k) (map fst d)).
Qed.

Lemma existsb_eqb_In (k : string) (ks : list string) :
  existsb (String.eqb k) ks = true <-> In k ks.
Proof.
  rewrite existsb_exists. split.
  - intros (x & Hx & Heq). apply String.eqb_eq in Heq. now subst.
  - intros Hin. exists k. split; [exact Hin | apply String.eqb_refl].
Qed.

Lemma dict_set_fresh (k : string) (v : value) (d : list (string * value)) :
  ~ In k (map fst d) -> dict_set k v d = d ++ [(k, v)].
Proof.
  induction d as [|[k' v'] d IH]; simpl; intros Hfresh; [reflexivity|].
  destruct (String.eqb_spec k k') as [->|Hne]; [tauto|].
  rewrite IH; [reflexivity | tauto].
Qed.

Lemma dict_set_NoDup (k : string) (v : value) (d : list (string * value)) :
  NoDup (map fst d) -> NoDup (map fst (dict_set k v d)).
Proof.
  intros Hd. rewrite dict_set_keys.
  destruct (existsb (String.eqb k) (map fst d)) eqn:Hk; [exact Hd|].
  apply NoDup_app. repeat split; [exact Hd| |apply NoDup_singleton].
  intros x Hx Hin. apply list_elem_of_In in Hx, Hin.
  destruct Hin as [<-|[]].
  apply existsb_eqb_In in Hx. congruence.
Qed.

Lemma fold_dict_set_NoDup (items acc : list (string * value)) :
  NoDup (map fst acc) ->
  NoDup (map fst (fold_left (fun d kv => dict_set (fst kv) (snd kv) d)
                    items acc)).
Proof.
  revert acc. induction items as [|[k v] items IH]; intros acc Hacc; simpl.
  - exact Hacc.
  - apply IH. now apply dict_set_NoDup.
Qed.

Lemma fold_dict_set_fresh (items acc : list (string * value)) :
  NoDup (map fst (acc ++ items)) ->
  fold_left (fun d kv => dict_set (fst kv) (snd kv) d) items acc = acc ++ items.
Proof.
  revert acc. induction items as [|[k v] items IH]; intros acc Hnd; simpl.
  - now rewrite app_nil_r.
  - assert (Hfresh : ~ In k (map fst acc)).
    { rewrite map_app in Hnd. apply NoDup_app in Hnd as (_ & Hdisj & _).
      intros Hin. apply (Hdisj k).
      - now apply list_elem_of_In.
      - simpl. left. }
    rewrite (dict_set_fresh k v acc Hfresh).
    rewrite IH; rewrite <- app_assoc; [reflexivity | exact Hnd].
Qed.

(** X5: the dictionary that [execute_query] builds from a row never has a
    column name twice, and when the column names of the row are pairwise
    distinct it is the row itself, cells in column order. *)
Theorem dict_of_items_columns (row : Row) :
  NoDup (map fst (dict_of_items row))
  /\ (distinct_columns row -> dict_of_items row = row).
Proof.
  split.
  - apply fold_dict_set_NoDup. constructor.
  - intros Hrow. apply (fold_dict_set_fresh row []). exact Hrow.
Qed.

Lemma dict_of_items_columns_witness :
  dict_of_items [("id", VInt 1); ("city", VStr "Oslo")]
  = [("id", VInt 1); ("city", VStr "Oslo")].
Proof.
  apply (dict_of_items_columns [("id", VInt 1); ("city", VStr "Oslo")]).
  unfold distinct_columns. simpl.
  repeat constructor; simpl; intros H; inversion H as [|? ? ? H']; subst;
    try discriminate; inversion H'.
Defined.

Example dict_of_items_repeated_column :
  dict_of_items [("a", VInt 1); ("b", VInt 2); ("a", VInt 3)]
  = [("a", VInt 3); ("b", VInt 2)].
Proof. reflexivity. Qed.


(** ** Frames: what a computation leaves alone *)

Section Stable.

Context (R : world -> world -> Prop) `{!PreOrder R}.

Lemma stable_ret {A} (a : A) : stable R (ret a).
Proof. intros w. reflexivity. Qed.

Lemma stable_raise {A} (e : exn) : stable R (@raise A e).
Proof. intros w. reflexivity. Qed.

Lemma stable_lift {A} (r : exn + A) : stable R (lift r).
Proof. intros w. reflexivity. Qed.

Lemma stable_get_db : stable R get_db.
Proof. intros w. reflexivity. Qed.

Lemma stable_bind {A B} (m : M A) (k : A -> M B) :
  stable R m -> (forall a, stable R (k a)) -> stable R (bind m k).
Proof.
  intros Hm Hk w. unfold bind. specialize (Hm w).
  destruct (m w) as [[e|a] w']; simpl in *; [exact Hm|].
  etransitivity; [exact Hm | apply Hk].
Qed.

Lemma stable_try_except {A} (m : M A) (h : exn -> M A) :
  stable R m -> (forall e, stable R (h e)) -> stable R (try_except m h).
Proof.
  intros Hm Hh w. unfold try_except. specialize (Hm w).
  destruct (m w) as [[e|a] w']; simpl in *; [|exact Hm].
  etransitivity; [exact Hm | apply Hh].
Qed.

Lemma stable_fspath (v : value) : stable R (fspath v).
Proof. destruct v; intros w; reflexivity. Qed.

Lemma stable_subscript (arguments : Arguments) (key : string) :
  stable R (subscript arguments key).
Proof.
  unfold subscript. destruct arguments as [d|]; [|apply stable_raise].
  destruct (d !! key); [apply stable_ret | apply stable_raise].
Qed.

Lemma stable_py_get (arguments : Arguments) (key : string) (dflt : value) :
  stable R (py_get arguments key dflt).
Proof. destruct arguments; [apply stable_ret | apply stable_raise]. Qed.

Lemma stable_write_headers (path : string) (schema : list SchemaField) :
  (forall cells, stable R (writerow path cells)) ->
  stable R (write_headers path schema).
Proof. intros Hrow. destruct schema; [apply stable_ret | apply Hrow]. Qed.

Lemma stable_write_rows (path : string)
  (rows : list (list (string * value))) (n : nat) :
  (forall cells, stable R (writerow path cells)) ->
  stable R (write_rows path rows n).
Proof.
  intros Hrow. revert n. induction rows as [|row rest IH]; intros n; simpl.
  - apply stable_ret.
  - apply stable_bind; [apply Hrow | intros _; apply IH].
Qed.

End Stable.

Ltac stable_steps :=
  repeat match goal with
    | |- stable _ (bind _ _) => apply stable_bind
    | |- stable _ (try_except _ _) => apply stable_try_except
    | |- stable _ (ret _) => apply stable_ret
    | |- stable _ (raise _) => apply stable_raise
    | |- stable _ (lift _) => apply stable_lift
    | |- stable _ (logger _ _) => solve [auto with stable]
    | |- stable _ get_db => apply stable_get_db
    | |- stable _ (fspath _) => apply stable_fspath
    | |- stable _ (subscript _ _) => apply stable_subscript
    | |- stable _ (py_get _ _ _) => apply stable_py_get
    | |- stable _ (write_headers _ _) => apply stable_write_headers
    | |- stable _ (write_rows _ _ _) => apply stable_write_rows
    | |- stable _ ((fun _ => _) _) => cbv beta
    | |- stable _ (let _ := _ in _) => cbv zeta
    | |- stable _ (if ?b then _ else _) => destruct b
    | |- forall _, _ => intro
    | |- _ => solve [auto with stable]
    end.

Create HintDb stable.

(** *** Warehouse calls *)

#[local] Instance same_backend_calls_preorder : PreOrder same_backend_calls.
Proof.
  split.
  - intros w. reflexivity.
  - intros w1 w2 w3 H12 H23. unfold same_backend_calls in *. congruence.
Qed.

Lemma same_backend_calls_emit (ev : event) :
  is_backend_event ev = false -> stable same_backend_calls (emit ev).
Proof.
  intros Hev w. unfold same_backend_calls. cbn.
  rewrite List.filter_app. cbn. rewrite Hev. apply app_nil_r.
Qed.

Lemma same_backend_calls_logger (lv : level) (msg : string) :
  stable same_backend_calls (logger lv msg).
Proof. intros w. reflexivity. Qed.

Lemma same_backend_calls_os_makedirs (E : Env) (p : string) :
  stable same_backend_calls (os_makedirs E p).
Proof.
  intros w. rewrite os_makedirs_run. unfold same_backend_calls.
  destruct (makedirs_error E _ _ _); cbn;
    rewrite List.filter_app; cbn; apply app_nil_r.
Qed.

Lemma same_backend_calls_open_w (E : Env) (p : string) :
  stable same_backend_calls (open_w E p).
Proof.
  intros w. rewrite open_w_run. unfold same_backend_calls.
  destruct (open_error E _ _ _); cbn;
    rewrite List.filter_app; cbn; apply app_nil_r.
Qed.

Lemma same_backend_calls_writerow (p : string) (cells : list value) :
  stable same_backend_calls (writerow p cells).
Proof. intros w. reflexivity. Qed.

#[local] Hint Resolve same_backend_calls_logger same_backend_calls_os_makedirs
  same_backend_calls_open_w same_backend_calls_writerow
  same_backend_calls_preorder : stable.

Lemma same_backend_calls_save_last (E : Env) (file_path : value) :
  stable same_backend_calls (save_last_results_to_csv_file E file_path).
Proof.
  unfold save_last_results_to_csv_file.
  apply stable_bind; [apply _| |].
  - now apply same_backend_calls_emit.
  - intros _. apply stable_bind; [apply _|apply stable_get_db; apply _|].
    intros self. destruct (last_query_results self); stable_steps.
Qed.

(** X9: [save-last-results-csv], whatever its arguments and whatever it
    returns, sends nothing to the warehouse and leaves the database
    object, its cache included, as it was: the cached rows are written
    without a new query and can be written again. *)
Theorem save_last_results_never_queries (E : Env) (arguments : Arguments)
  (w : world) :
  let w' := snd (handle_call_tool E "save-last-results-csv" arguments w) in
  List.filter is_backend_event (w_trace w')
  = List.filter is_backend_event (w_trace w)
  /\ w_db w' = w_db w.
Proof.
  split.
  - rewrite handle_save_last_results_csv.
    assert (H : stable same_backend_calls
                  (try_except
                     (if py_not arguments
                         || negb (py_in "file_path" arguments) then
                        raise (ValueError "Missing file_path argument")
                      else
                        do file_path <- subscript arguments "file_path";
                        do result <- save_last_results_to_csv_file E file_path;
                        ret [TextContent result])
                     (fun e => ret [TextContent ("Error: " +:+ str_exn e)]))).
    { pose proof (same_backend_calls_save_last E). stable_steps. }
    apply H.
  - apply preserves_db_handle_call_tool; discriminate.
Qed.

(** *** Requests for directories and files *)

#[local] Instance no_export_io_preorder : PreOrder no_export_io.
Proof.
  split.
  - intros w. split; reflexivity.
  - intros w1 w2 w3 [Hf12 Ht12] [Hf23 Ht23]. split; congruence.
Qed.

Lemma no_export_io_emit (ev : event) :
  is_fs_event ev = false -> stable no_export_io (emit ev).
Proof.
  intros Hev w. split; [reflexivity|]. cbn.
  rewrite List.filter_app. cbn. rewrite Hev. apply app_nil_r.
Qed.

Lemma no_export_io_external {A} (ev : event)
  (answer : list event -> exn + A) :
  is_fs_event ev = false -> stable no_export_io (external ev answer).
Proof.
  intros Hev w. split; [reflexivity|]. cbn.
  rewrite List.filter_app. cbn. rewrite Hev. apply app_nil_r.
Qed.

Lemma no_export_io_logger (lv : level) (msg : string) :
  stable no_export_io (logger lv msg).
Proof. intros w. split; reflexivity. Qed.

Lemma no_export_io_set_last_query_results (r : option LastQuery) :
  stable no_export_io (set_last_query_results r).
Proof. intros w. split; reflexivity. Qed.

#[local] Hint Resolve no_export_io_logger no_export_io_set_last_query_results
  no_export_io_preorder : stable.

Lemma no_export_io_execute_query (E : Env) (query : value)
  (params : list ScalarQueryParameter) :
  stable no_export_io (execute_query E query params).
Proof.
  pose proof (no_export_io_emit (EAdapter "execute_query") eq_refl).
  pose proof (fun p => no_export_io_external (A := RowIterator)
                         (EQuery query p)
                         (fun t => client_query E t query p) eq_refl).
  unfold execute_query. destruct params; stable_steps.
Qed.

Lemma no_export_io_describe_table (E : Env) (table_name : value) :
  stable no_export_io (describe_table E table_name).
Proof.
  pose proof (no_export_io_execute_query E) as Hexec.
  pose proof (no_export_io_emit (EAdapter "describe_table") eq_refl).
  unfold describe_table. destruct table_name; stable_steps.
Qed.

Lemma no_export_io_list_tables_call (E : Env) (a : value) :
  stable no_export_io (list_tables E [a]).
Proof. unfold list_tables. apply stable_raise. apply _. Qed.

(** X8: a call of any tool name other than the three [save-...] tools,
    with any arguments and any outcome, asks for no directory and opens
    no file, and leaves the directories and files of the exports as they
    were; what it writes is log records. *)
Theorem file_system_changed_by_save_tools_only (E : Env) (tool_name : string)
  (arguments : Arguments) (w : world) :
  tool_name <> "save-csv-file" ->
  tool_name <> "save-last-results-csv" ->
  tool_name <> "save-csv-auto" ->
  let w' := snd (handle_call_tool E tool_name arguments w) in
  w_fs w' = w_fs w
  /\ List.filter is_fs_event (w_trace w')
     = List.filter is_fs_event (w_trace w).
Proof.
  intros Hfile Hlast Hauto.
  assert (H : stable no_export_io (handle_call_tool E tool_name arguments)).
  { unfold handle_call_tool, call_tool_body.
    apply String.eqb_neq in Hfile, Hlast, Hauto.
    rewrite Hfile, Hlast, Hauto.
    pose proof (no_export_io_execute_query E) as Hexec.
    pose proof (no_export_io_describe_table E) as Hdesc.
    pose proof (no_export_io_list_tables_call E) as Hlist.
    stable_steps. }
  apply H.
Qed.

Lemma file_system_changed_by_save_tools_only_witness :
  let w' := snd (handle_call_tool demo_env "execute-query"
                   (Some {[ "query" := VStr "SELECT 1" ]}) fresh_world) in
  w_fs w' = w_fs fresh_world
  /\ List.filter is_fs_event (w_trace w') = [].
Proof.
  apply (file_system_changed_by_save_tools_only demo_env "execute-query");
    discriminate.
Defined.

Example execute_query_log :
  w_log (snd (handle_call_tool demo_env "execute-query"
                (Some {[ "query" := VStr "SELECT 1" ]}) fresh_world))
  = w_log fresh_world
    ++ [(DEBUG, "Executing query: SELECT 1");
        (DEBUG, "Query returned 2 rows")].
Proof. reflexivity. Qed.

(** ** What a CSV export asks for and writes *)

(** X6: [save-csv-file] with the string [path] as [file_path], whatever
    else is in the bag and whatever the outcome, asks the operating system
    for at most one directory and one file, in this order: [os.makedirs]
    on the directory part of [path], then [open] on [path]; and it leaves
    the database object as it was. *)
Theorem save_csv_file_requests (E : Env) (d : gmap string value)
  (path : string) (w : world) :
  d !! "file_path" = Some (VStr path) ->
  let w' := snd (handle_call_tool E "save-csv-file" (Some d) w) in
  (exists added,
     List.filter is_fs_event (w_trace w')
     = List.filter is_fs_event (w_trace w) ++ added
     /\ (added = []
         \/ added = [EMakedirs (dirname path)]
         \/ added = [EMakedirs (dirname path); EOpenWrite path]))
  /\ w_db w' = w_db w.
Proof.
  intros Hpath w'. split; [|apply preserves_db_save_csv_file].
  subst w'. destruct (d !! "query") as [query|] eqn:Hquery.
  - rewrite (handle_save_csv_file_run E d query (VStr path) w Hquery Hpath).
    cbn [snd].
    destruct (client_query E
                (w_trace w ++ [EAdapter "save_query_to_csv_file"]) query [])
      as [e|results] eqn:Hq.
    { rewrite (save_query_to_csv_file_query_raises E query (VStr path) e w Hq).
      exists []. cbn. rewrite !List.filter_app. cbn. rewrite !app_nil_r. auto. }
    destruct (makedirs_error E
                (((w_trace w ++ [EAdapter "save_query_to_csv_file"])
                  ++ [EQuery query []]) ++ [EMakedirs (dirname path)])
                (w_fs w) (dirname path)) as [e|] eqn:Hmk.
    { rewrite (save_query_to_csv_file_makedirs_raises E query path results w e
                 Hq Hmk).
      exists [EMakedirs (dirname path)]. cbn.
      rewrite !List.filter_app. cbn. rewrite !app_nil_r. auto. }
    destruct (open_error E
                ((((w_trace w ++ [EAdapter "save_query_to_csv_file"])
                   ++ [EQuery query []]) ++ [EMakedirs (dirname path)])
                 ++ [EOpenWrite path])
                (fs_after_makedirs (w_fs w) (dirname path)) path)
      as [e|] eqn:Hop.
    { rewrite (save_query_to_csv_file_open_raises E query path results w e
                 Hq Hmk Hop).
      exists [EMakedirs (dirname path); EOpenWrite path]. cbn.
      rewrite !List.filter_app. cbn. rewrite !app_nil_r, <- app_assoc. auto. }
    destruct (save_query_to_csv_file_ok E query path results w Hq
                (conj Hmk Hop)) as (w' & -> & _ & Htr & _).
    exists [EMakedirs (dirname path); EOpenWrite path]. cbn [snd].
    rewrite Htr, !List.filter_app. cbn. rewrite !app_nil_r, <- app_assoc. auto.
  - rewrite handle_save_csv_file. unfold py_in at 1. rewrite Hquery.
    cbn [negb]. rewrite orb_true_r. cbn.
    exists []. rewrite app_nil_r. auto.
Qed.

Lemma save_csv_file_requests_witness :
  let w' := snd (handle_call_tool demo_env "save-csv-file"
                   (Some {[ "query" := VStr "SELECT 1";
                            "file_path" := VStr "/tmp/out.csv" ]})
                   fresh_world) in
  List.filter is_fs_event (w_trace w')
  = [EMakedirs "/tmp"; EOpenWrite "/tmp/out.csv"]
  /\ w_db w' = w_db fresh_world.
Proof.
  intros w'.
  destruct (save_csv_file_requests demo_env
              {[ "query" := VStr "SELECT 1";
                 "file_path" := VStr "/tmp/out.csv" ]}
              "/tmp/out.csv" fresh_world) as (_ & Hdb).
  - reflexivity.
  - split; [reflexivity | exact Hdb].
Defined.



Example makedirs_makes_ancestors :
  fs_dirs (w_fs (snd (os_makedirs demo_env "exports/2024" fresh_world)))
  = ["exports/2024"; "exports"].
Proof. reflexivity. Qed.

(** X10: when the warehouse rejects the query of [save-csv-file] with [e],
    the result is the text "Error: " followed by [str(e)]; no directory is
    asked for, no file is opened, the directories, the files and the
    database object are as before, and the log grows by the debug line of
    the entry and the error line of the [except] clause. *)
Theorem save_csv_file_failed_query_writes_nothing (E : Env)
  (d : gmap string value) (query file_path : value) (e : exn) (w : world) :
  d !! "query" = Some query ->
  d !! "file_path" = Some file_path ->
  client_query E (w_trace w ++ [EAdapter "save_query_to_csv_file"]) query []
  = inl e ->
  handle_call_tool E "save-csv-file" (Some d) w
  = (inr [TextContent ("Error: " +:+ str_exn e)],
     {| w_db := w_db w;
        w_fs := w_fs w;
        w_trace := (w_trace w ++ [EAdapter "save_query_to_csv_file"])
                   ++ [EQuery query []];
        w_log := (w_log w
                  ++ [(DEBUG, "Executing query and saving to CSV file: "
                              +:+ py_str E file_path)])
                 ++ [(ERROR, "Error saving query to CSV file: "
                             +:+ str_exn e)] |}).
Proof.
  intros Hquery Hpath He.
  rewrite (handle_save_csv_file_run E d query file_path w Hquery Hpath).
  now rewrite (save_query_to_csv_file_query_raises E query file_path e w He).
Qed.

Lemma save_csv_file_failed_query_writes_nothing_witness :
  handle_call_tool demo_env "save-csv-file"
    (Some {[ "query" := VNone; "file_path" := VStr "/tmp/out.csv" ]})
    fresh_world
  = (inr [TextContent "Error: 400 query is not a string"],
     {| w_db := w_db fresh_world;
        w_fs := w_fs fresh_world;
        w_trace := [EAdapter "save_query_to_csv_file"; EQuery VNone []];
        w_log := w_log fresh_world
                 ++ [(DEBUG,
                      "Executing query and saving to CSV file: /tmp/out.csv");
                     (ERROR,
                      "Error saving query to CSV file: 400 query is not a string")] |}).
Proof.
  apply (save_csv_file_failed_query_writes_nothing demo_env
           {[ "query" := VNone; "file_path" := VStr "/tmp/out.csv" ]}
           VNone (VStr "/tmp/out.csv")
           (BackendError "400 query is not a string") fresh_world);
    reflexivity.
Defined.

(** X11: when [file_path] is not a string, [save-csv-file] still runs the
    query first; only then is the path rejected, with the text of the
    [TypeError] that names the type of the value, and nothing is written
    but the two log lines of the entry and of the [except] clause. *)
Theorem save_csv_file_path_checked_after_query (E : Env)
  (d : gmap string value) (query file_path : value) (results : RowIterator)
  (w : world) :
  d !! "query" = Some query ->
  d !! "file_path" = Some file_path ->
  (forall s, file_path <> VStr s) ->
  client_query E (w_trace w ++ [EAdapter "save_query_to_csv_file"]) query []
  = inr results ->
  handle_call_tool E "save-csv-file" (Some d) w
  = (inr [TextContent
            ("Error: expected str, bytes or os.PathLike object, not "
             +:+ py_type_name file_path)],
     {| w_db := w_db w;
        w_fs := w_fs w;
        w_trace := (w_trace w ++ [EAdapter "save_query_to_csv_file"])
                   ++ [EQuery query []];
        w_log := (w_log w
                  ++ [(DEBUG, "Executing query and saving to CSV file: "
                              +:+ py_str E file_path)])
                 ++ [(ERROR,
                      "Error saving query to CSV file: expected str, bytes or os.PathLike object, not "
                      +:+ py_type_name file_path)] |}).
Proof.
  intros Hquery Hpath Hnot Hq.
  rewrite (handle_save_csv_file_run E d query file_path w Hquery Hpath).
  now rewrite (save_query_to_csv_file_not_a_path E query file_path results w
                 Hq Hnot).
Qed.

Lemma save_csv_file_path_checked_after_query_witness :
  handle_call_tool demo_env "save-csv-file"
    (Some {[ "query" := VStr "SELECT 1"; "file_path" := VInt 5 ]})
    fresh_world
  = (inr [TextContent
            "Error: expected str, bytes or os.PathLike object, not int"],
     {| w_db := w_db fresh_world;
        w_fs := w_fs fresh_world;
        w_trace := [EAdapter "save_query_to_csv_file";
                    EQuery (VStr "SELECT 1") []];
        w_log := w_log fresh_world
                 ++ [(DEBUG, "Executing query and saving to CSV file: <value>");
                     (ERROR,
                      "Error saving query to CSV file: expected str, bytes or os.PathLike object, not int")] |}).
Proof.
  apply (save_csv_file_path_checked_after_query demo_env
           {[ "query" := VStr "SELECT 1"; "file_path" := VInt 5 ]}
           (VStr "SELECT 1") (VInt 5) demo_result fresh_world);
    try reflexivity.
  intros s. discriminate.
Defined.

(** ** Two ways to export a result *)




(** ** The parts of a table name *)

Lemma split_nonempty (sep : ascii) (s : string) : split sep s <> [].
Proof.
  intros H. apply (f_equal (@length string)) in H.
  rewrite split_length in H. discriminate H.
Qed.

Lemma split_join (sep : ascii) (s : string) :
  join (String sep "") (split sep s) = s.
Proof.
  unfold join. induction s as [|c s IH]; [reflexivity|].
  simpl. destruct (Ascii.eqb_spec c sep) as [->|Hne].
  - pose proof (split_nonempty sep s) as Hs.
    destruct (split sep s) as [|h t]; [contradiction|].
    cbn [String.concat] in *. cbn. now rewrite IH.
  - pose proof (split_nonempty sep s) as Hs.
    destruct (split sep s) as [|h t]; [contradiction|].
    destruct t as [|h' t]; cbn [String.concat] in *; cbn; now rewrite <- IH.
Qed.

Lemma split_last_no_sep (sep : ascii) (s : string) :
  count_char sep (List.last (split sep s) "") = 0.
Proof.
  induction s as [|c s IH]; [reflexivity|].
  simpl. pose proof (split_nonempty sep s) as Hs.
  destruct (Ascii.eqb c sep) eqn:Hc.
  - destruct (split sep s) as [|h t]; [contradiction|]. exact IH.
  - destruct (split sep s) as [|h t]; [contradiction|].
    destruct t as [|h' t]; [|exact IH].
    simpl in *. now rewrite Hc, IH.
Qed.

Lemma string_app_assoc (a b c : string) : (a +:+ b) +:+ c = a +:+ b +:+ c.
Proof.
  induction a as [|x a IH]; [reflexivity|].
  change (String x ((a +:+ b) +:+ c) = String x (a +:+ b +:+ c)).
  now rewrite IH.
Qed.

Lemma concat_but_last (sep : string) (parts : list string) :
  2 <= length parts ->
  String.concat sep parts
  = String.concat sep (removelast parts) +:+ sep +:+ List.last parts "".
Proof.
  induction parts as [|a parts IH]; simpl; [lia|]. intros Hlen.
  destruct parts as [|b parts]; [simpl in Hlen; lia|].
  destruct parts as [|c parts].
  - reflexivity.
  - assert (Hlen' : 2 <= length (b :: c :: parts)) by (simpl; lia).
    specialize (IH Hlen').
    change (removelast (b :: c :: parts)) with (b :: removelast (c :: parts)) in *.
    change (List.last (b :: c :: parts) "") with (List.last (c :: parts) "") in *.
    cbn [String.concat] in *.
    destruct (removelast (c :: parts)) as [|x xs] eqn:Hrl.
    + rewrite IH. cbn. now rewrite !string_app_assoc.
    + rewrite IH. cbn. now rewrite !string_app_assoc.
Qed.

(** X13: for a table name of at least two segments, the dataset part and
    the table part that [describe_table] takes from it give the name back
    when joined by a dot, and the table part, the value of the query
    parameter, has no dot. *)
Theorem describe_table_name_parts (table_name : string) :
  let parts := split "." table_name in
  2 <= length parts ->
  join "." (but_last parts) +:+ "." +:+ last_part parts = table_name
  /\ count_char "." (last_part parts) = 0.
Proof.
  intros parts Hlen. split.
  - unfold join, but_last, last_part.
    rewrite <- (concat_but_last "." parts Hlen).
    apply (split_join "." table_name).
  - apply split_last_no_sep.
Qed.

Lemma describe_table_name_parts_witness :
  join "." (but_last (split "." "proj.sales.orders")) +:+ "."
    +:+ last_part (split "." "proj.sales.orders")
  = "proj.sales.orders"
  /\ count_char "." (last_part (split "." "proj.sales.orders")) = 0.
Proof.
  apply (describe_table_name_parts "proj.sales.orders"). simpl. lia.
Defined.

(** X14: a [table_name] that is not a string is answered with the text of
    the [AttributeError] that names its type; [describe_table] is entered
    and logs its debug line, and nothing is sent to the warehouse. *)
Theorem describe_table_not_a_string (E : Env) (d : gmap string value)
  (table_name : value) (w : world) :
  d !! "table_name" = Some table_name ->
  (forall s, table_name <> VStr s) ->
  handle_call_tool E "describe-table" (Some d) w
  = (inr [TextContent ("Error: '" +:+ py_type_name table_name
                       +:+ "' object has no attribute 'split'")],
     {| w_db := w_db w;
        w_fs := w_fs w;
        w_trace := w_trace w ++ [EAdapter "describe_table"];
        w_log := w_log w
                 ++ [(DEBUG, "Describing table: " +:+ py_str E table_name)] |}).
Proof.
  intros Hd Hnot. rewrite (handle_describe_table_run E d table_name w Hd).
  rewrite (describe_table_not_str E table_name w Hnot). cbn [fst snd str_exn].
  unfold py_repr_plain. now rewrite !string_app_assoc.
Qed.

Lemma describe_table_not_a_string_witness :
  handle_call_tool demo_env "describe-table"
    (Some {[ "table_name" := VList [VStr "sales"; VStr "orders"] ]})
    fresh_world
  = (inr [TextContent "Error: 'list' object has no attribute 'split'"],
     {| w_db := w_db fresh_world;
        w_fs := w_fs fresh_world;
        w_trace := [EAdapter "describe_table"];
        w_log := w_log fresh_world
                 ++ [(DEBUG, "Describing table: <value>")] |}).
Proof.
  apply (describe_table_not_a_string demo_env
           {[ "table_name" := VList [VStr "sales"; VStr "orders"] ]}
           (VList [VStr "sales"; VStr "orders"]) fresh_world).
  - reflexivity.
  - intros s. discriminate.
Defined.

(** X15: a [describe-table] that the warehouse answers goes through
    [execute_query] and so replaces the last-result cache by the rows and
    schema of the DDL query; the text returned is [str] of those rows. *)
Theorem describe_table_sets_cache (E : Env) (d : gmap string value)
  (s : string) (results : RowIterator) (w : world) :
  d !! "table_name" = Some (VStr s) ->
  length (split "." s) = 2 \/ length (split "." s) = 3 ->
  client_query E
    ((w_trace w ++ [EAdapter "describe_table"]) ++ [EAdapter "execute_query"])
    (VStr (ddl_query (join "." (but_last (split "." s)))))
    [{| sp_name := "table_name"; sp_type := "STRING";
        sp_value := last_part (split "." s) |}]
  = inr results ->
  let out := handle_call_tool E "describe-table" (Some d) w in
  let rows := map dict_of_items (ri_rows results) in
  fst out = inr [TextContent (py_str E (VList (map VDict rows)))]
  /\ last_query_results (w_db (snd out))
     = Some {| lq_rows := rows; lq_schema := ri_schema results |}.
Proof.
  intros Hd Hn Hq out rows. subst out.
  rewrite (handle_describe_table_run E d (VStr s) w Hd).
  rewrite (describe_table_forwards E s w Hn).
  match goal with
  | |- context [execute_query E ?q ?ps ?w1] =>
      destruct (execute_query_params_ok E q ps w1 results Hq)
        as (w' & -> & Hcache)
  end.
  cbn. auto.
Qed.

Lemma describe_table_sets_cache_witness :
  last_query_results
    (w_db (snd (handle_call_tool demo_env "describe-table"
                  (Some {[ "table_name" := VStr "sales.orders" ]})
                  fresh_world)))
  = Some {| lq_rows := map dict_of_items (ri_rows demo_result);
            lq_schema := ri_schema demo_result |}.
Proof.
  apply (describe_table_sets_cache demo_env
           {[ "table_name" := VStr "sales.orders" ]} "sales.orders"
           demo_result fresh_world).
  - reflexivity.
  - left. reflexivity.
  - reflexivity.
Defined.

(** ** Exports with a generated file name *)











(** ** Listing tables *)

Lemma list_tables_loop_all (E : Env) (tables_of : string -> list string)
  (datasets : list string) :
  (forall t dataset_id, In dataset_id datasets ->
     client_list_tables E t dataset_id = inr (tables_of dataset_id)) ->
  forall (tables : list string) (w : world),
    list_tables_loop E datasets tables w
    = (inr (tables
            ++ flat_map (fun dataset_id =>
                           map (fun table_id => dataset_id +:+ "." +:+ table_id)
                             (tables_of dataset_id)) datasets),
       {| w_db := w_db w; w_fs := w_fs w;
          w_trace := w_trace w ++ map EListTables datasets;
          w_log := w_log w |}).
Proof.
  induction datasets as [|dataset_id rest IH]; intros Hall tables w.
  - simpl. rewrite !app_nil_r. now destruct w.
  - simpl. erewrite bind_returned
      by (apply external_answer; apply Hall; now left).
    rewrite IH by (intros t d' Hd'; apply Hall; now right).
    cbn [w_db w_fs w_trace w_log]. now rewrite <- !app_assoc.
Qed.

(** X17: without a configured filter, [list_tables] asks the warehouse for
    the datasets once and then for the tables of each dataset in that
    order; when every listing is answered, the result is the
    ["dataset.table"] identifiers, datasets in the order listed and tables
    in the order listed within each; the trace grows by these calls and
    the log by three debug lines, and nothing else changes. *)
Theorem list_tables_unfiltered (E : Env) (tables_of : string -> list string)
  (datasets : list string) (w : world) :
  truthy (datasets_filter (w_db w)) = false ->
  client_list_datasets E (w_trace w ++ [EAdapter "list_tables"]) = inr datasets ->
  (forall t dataset_id, In dataset_id datasets ->
     client_list_tables E t dataset_id = inr (tables_of dataset_id)) ->
  let tables :=
    flat_map (fun dataset_id =>
                map (fun table_id => dataset_id +:+ "." +:+ table_id)
                  (tables_of dataset_id)) datasets in
  list_tables E [] w
  = (inr tables,
     {| w_db := w_db w; w_fs := w_fs w;
        w_trace := ((w_trace w ++ [EAdapter "list_tables"]) ++ [EListDatasets])
                   ++ map EListTables datasets;
        w_log := ((w_log w ++ [(DEBUG, "Listing all tables")])
                  ++ [(DEBUG, "Found " +:+ pretty (length datasets)
                              +:+ " datasets")])
                 ++ [(DEBUG, "Found " +:+ pretty (length tables)
                             +:+ " tables")] |}).
Proof.
  intros Hfilter Hds Htables tables.
  unfold list_tables. step. step. step. cbn [w_db].
  rewrite Hfilter.
  erewrite bind_returned by (apply external_answer; exact Hds).
  step.
  erewrite bind_returned
    by (apply (list_tables_loop_all E tables_of datasets Htables)).
  step. reflexivity.
Qed.

Lemma list_tables_unfiltered_witness :
  fst (list_tables demo_env [] fresh_world)
  = inr ["sales.orders"; "sales.refunds"]
  /\ w_trace (snd (list_tables demo_env [] fresh_world))
     = [EAdapter "list_tables"; EListDatasets; EListTables "sales"].
Proof.
  rewrite (list_tables_unfiltered demo_env (fun _ => ["orders"; "refunds"])
             ["sales"] fresh_world).
  - split; reflexivity.
  - reflexivity.
  - reflexivity.
  - reflexivity.
Defined.

Lemma py_iter_state (v : value) (w : world) : snd (py_iter v w) = w.
Proof. destruct v; reflexivity. Qed.

Lemma datasets_of_state (E : Env) (vs : list value) (w : world) :
  snd (datasets_of E vs w) = w.
Proof.
  induction vs as [|v vs IH]; [reflexivity|].
  simpl. unfold bind at 1, lift.
  destruct (client_dataset E v) as [e|d0]; [reflexivity|].
  unfold bind. specialize IH.
  destruct (datasets_of E vs w) as [[e|ds] w'] eqn:Hrest; simpl in *; exact IH.
Qed.

Lemma list_tables_loop_trace (E : Env) (datasets : list string) :
  forall (tables : list string) (w : world),
    exists called,
      snd (list_tables_loop E datasets tables w)
      = {| w_db := w_db w; w_fs := w_fs w;
           w_trace := w_trace w ++ map EListTables called;
           w_log := w_log w |}.
Proof.
  induction datasets as [|dataset_id rest IH]; intros tables w.
  - exists []. simpl. rewrite app_nil_r. now destruct w.
  - simpl. unfold bind at 1, external.
    destruct (client_list_tables E (w_trace w) dataset_id) as [e|ts].
    + now exists [dataset_id].
    + match goal with
      | |- context [list_tables_loop E rest ?tb ?w1] =>
          destruct (IH tb w1) as (called & ->)
      end.
      exists (dataset_id :: called). cbn. now rewrite <- app_assoc.
Qed.

(** X18: with a configured filter, whatever it holds and whatever the
    warehouse answers, [list_tables] never asks for the list of datasets:
    after its entry the trace grows by table listings only; the database
    object is as before, no directory is asked for and no file is opened,
    and the log grows by debug lines only, the first of which is
    "Listing all tables". *)
Theorem list_tables_filtered_skips_datasets (E : Env) (w : world) :
  truthy (datasets_filter (w_db w)) = true ->
  let w' := snd (list_tables E [] w) in
  (exists called,
     w_trace w'
     = (w_trace w ++ [EAdapter "list_tables"]) ++ map EListTables called)
  /\ w_db w' = w_db w
  /\ w_fs w' = w_fs w
  /\ (exists more,
        w_log w' = (w_log w ++ [(DEBUG, "Listing all tables")]) ++ more
        /\ Forall (fun r => fst r = DEBUG) more).
Proof.
  intros Hfilter w'.
  assert (Hw' : exists called more,
            w' = {| w_db := w_db w; w_fs := w_fs w;
                    w_trace := (w_trace w ++ [EAdapter "list_tables"])
                               ++ map EListTables called;
                    w_log := (w_log w ++ [(DEBUG, "Listing all tables")])
                             ++ more |}
            /\ Forall (fun r => fst r = DEBUG) more).
  { subst w'. unfold list_tables. step. step. step. cbn [w_db].
    rewrite Hfilter.
    set (w1 := {| w_db := w_db w; w_fs := w_fs w;
                  w_trace := w_trace w ++ [EAdapter "list_tables"];
                  w_log := w_log w ++ [(DEBUG, "Listing all tables")] |}).
    pose proof (py_iter_state (datasets_filter (w_db w)) w1) as Hiter.
    assert (Hpre : snd ((do vs <- py_iter (datasets_filter (w_db w));
                         datasets_of E vs) w1) = w1).
    { unfold bind.
      destruct (py_iter (datasets_filter (w_db w)) w1) as [[e|vs] w2];
        simpl in *; [exact Hiter|].
      subst w2. apply datasets_of_state. }
    destruct ((do vs <- py_iter (datasets_filter (w_db w)); datasets_of E vs) w1)
      as [[e|datasets] w2] eqn:Hds; simpl in Hpre; subst w2.
    - erewrite bind_raised by exact Hds.
      exists [], []. cbn. rewrite !app_nil_r. auto.
    - erewrite bind_returned by exact Hds. step.
      match goal with
      | |- context [bind (list_tables_loop E datasets []) _ ?w2] =>
          pose proof (list_tables_loop_trace E datasets [] w2)
            as (called & Hloop);
          destruct (list_tables_loop E datasets [] w2) as [[e|tables] w3]
            eqn:Hrun
      end; cbn [snd w_db w_fs w_trace w_log] in Hloop; subst w3.
      + erewrite bind_raised by exact Hrun.
        exists called. eexists. cbn. split; [reflexivity|].
        repeat constructor.
      + erewrite bind_returned by exact Hrun. step.
        exists called. eexists. cbn. rewrite <- !app_assoc.
        split; [reflexivity|]. repeat constructor. }
  destruct Hw' as (called & more & -> & Hmore). cbn. eauto 10.
Qed.

Lemma list_tables_filtered_skips_datasets_witness :
  let w := {| w_db := {| client := client (w_db fresh_world);
                         datasets_filter := VList [VStr "sales"; VStr "hr"];
                         last_query_results := None |};
              w_fs := w_fs fresh_world;
              w_trace := [];
              w_log := [] |} in
  fst (list_tables demo_env [] w)
  = inr ["sales.orders"; "sales.refunds"; "hr.orders"; "hr.refunds"]
  /\ exists called,
       w_trace (snd (list_tables demo_env [] w))
       = [EAdapter "list_tables"] ++ map EListTables called.
Proof.
  intros w. split; [reflexivity|].
  apply (list_tables_filtered_skips_datasets demo_env w). reflexivity.
Defined.

(** ** Which requests change the database object *)

(** X19: from any state, a sequence of requests of any sessions in which
    no call names [execute-query] or [describe-table] leaves the database
    object, and so the last-result cache, as it was. *)
Theorem cache_written_by_queries_only (E : Env)
  (reqs : list (session * request)) (w : world) :
  Forall not_a_query reqs ->
  w_db (serve_all E reqs w) = w_db w.
Proof. intros Hreqs. now apply db_unchanged_without_query. Qed.

Lemma cache_written_by_queries_only_witness :
  w_db (serve_all demo_env
          [ (1, CallToolRequest "save-csv-file"
                  (Some {[ "query" := VStr "SELECT 1";
                           "file_path" := VStr "/tmp/out.csv" ]}));
            (2, ListToolsRequest);
            (2, CallToolRequest "list-tables" None) ]
          fresh_world)
  = w_db fresh_world.
Proof.
  apply (cache_written_by_queries_only demo_env).
  repeat constructor; discriminate.
Defined.

(** ** More edges of the exports *)

(** X20: with a result in the cache, [save-last-results-csv] to a
    [file_path] without a slash calls [os.makedirs] on the empty directory
    part, which raises; the result is the text of that error, no file is
    opened, the directories, the files and the cache are as before, and
    the log grows by the debug line before the [try] and the error line of
    the [except] clause. *)
Theorem save_last_results_bare_filename_fails (E : Env)
  (d : gmap string value) (path : string) (last : LastQuery) (w : world) :
  d !! "file_path" = Some (VStr path) ->
  count_char "/" path = 0 ->
  last_query_results (w_db w) = Some last ->
  handle_call_tool E "save-last-results-csv" (Some d) w
  = (inr [TextContent "Error: [Errno 2] No such file or directory: ''"],
     {| w_db := w_db w;
        w_fs := w_fs w;
        w_trace := (w_trace w ++ [EAdapter "save_last_results_to_csv_file"])
                   ++ [EMakedirs ""];
        w_log := (w_log w
                  ++ [(DEBUG, "Saving last query results to CSV file: "
                              +:+ path)])
                 ++ [(ERROR,
                      "Error saving last results to CSV file: [Errno 2] No such file or directory: ''")] |}).
Proof.
  intros Hpath Hbare Hlast.
  rewrite (handle_save_last_results_run E d (VStr path) w Hpath).
  rewrite (save_last_results_to_csv_file_makedirs_raises E path last w
             (FileNotFoundError "") Hlast).
  - now rewrite (dirname_bare_filename path Hbare).
  - rewrite (dirname_bare_filename path Hbare). apply makedirs_error_empty.
Qed.

Lemma save_last_results_bare_filename_fails_witness :
  let w1 := snd (handle_call_tool demo_env "execute-query"
                   (Some {[ "query" := VStr "SELECT 1" ]}) fresh_world) in
  fst (handle_call_tool demo_env "save-last-results-csv"
         (Some {[ "file_path" := VStr "data.csv" ]}) w1)
  = inr [TextContent "Error: [Errno 2] No such file or directory: ''"]
  /\ w_fs (snd (handle_call_tool demo_env "save-last-results-csv"
                  (Some {[ "file_path" := VStr "data.csv" ]}) w1))
     = w_fs fresh_world.
Proof.
  intros w1.
  rewrite (save_last_results_bare_filename_fails demo_env
             {[ "file_path" := VStr "data.csv" ]} "data.csv"
             {| lq_rows := map dict_of_items (ri_rows demo_result);
                lq_schema := ri_schema demo_result |} w1).
  - split; reflexivity.
  - reflexivity.
  - reflexivity.
  - reflexivity.
Defined.

(** X21: [save-csv-auto] with a [directory] that is not a string reads the
    clock for the file name and is then stopped by [os.path.join]: the
    result is the text of the [TypeError] that names the type, and no
    query is sent and nothing is written. *)
Theorem save_csv_auto_directory_not_a_string (E : Env)
  (d : gmap string value) (query directory : value) (w : world) :
  d !! "query" = Some query ->
  d !! "directory" = Some directory ->
  (forall s, directory <> VStr s) ->
  handle_call_tool E "save-csv-auto" (Some d) w
  = (inr [TextContent
            ("Error: expected str, bytes or os.PathLike object, not "
             +:+ py_type_name directory)],
     {| w_db := w_db w;
        w_fs := w_fs w;
        w_trace := (w_trace w ++ [EAdapter "generate_csv_filename"])
                   ++ [ENow];
        w_log := w_log w |}).
Proof.
  intros Hquery Hdir Hnot. rewrite handle_save_csv_auto.
  rewrite (py_not_false_of_lookup d _ _ Hquery),
    (py_in_true_of_lookup d _ _ Hquery).
  cbn [orb negb]. unfold py_get. rewrite Hdir.
  cbn [default from_option id]. rewrite !bind_ret.
  unfold try_except, bind at 1, generate_csv_filename, bind at 1, emit,
    bind at 1, external. cbn [w_trace w_db w_fs w_log ret].
  destruct directory; try reflexivity. now destruct (Hnot s).
Qed.

Lemma save_csv_auto_directory_not_a_string_witness :
  handle_call_tool demo_env "save-csv-auto"
    (Some {[ "query" := VStr "SELECT 1"; "directory" := VNone ]}) fresh_world
  = (inr [TextContent
            "Error: expected str, bytes or os.PathLike object, not NoneType"],
     {| w_db := w_db fresh_world;
        w_fs := w_fs fresh_world;
        w_trace := [EAdapter "generate_csv_filename"; ENow];
        w_log := w_log fresh_world |}).
Proof.
  apply (save_csv_auto_directory_not_a_string demo_env
           {[ "query" := VStr "SELECT 1"; "directory" := VNone ]}
           (VStr "SELECT 1") VNone fresh_world).
  - reflexivity.
  - reflexivity.
  - intros s. discriminate.
Defined.
